(** * Eufy RoboVac S1 Pro integration: status decoder, fan-speed tables and
      command sequencing.

    Shallow embedding of [custom_components/eufy_robovac_s1_pro/vacuum.py].
    Python values are a small tagged union, dictionaries keyed by strings are
    [gmap string _], exceptions are values of an error type carried by a
    result type, and the methods of [RobovacVacuum] are computations in a
    state-and-exception monad over the entity, its coordinator and the
    device behind it.

    Embedded: [decode_dps153_to_state], [_get_docked_substatus], the fan
    speed and command tables, the properties [activity], [error_code] and
    [fan_speed], [_is_running], and the command methods from
    [_send_command] to [_handle_clean_room_command].  Calls to the logger
    return nothing and change nothing, and are left out; so are the
    entity's descriptive properties ([icon], [device_info], [unique_id],
    [battery_level], [state_attributes]) and the platform set-up. *)

From Stdlib Require Import ZArith String Ascii List Lia DecimalString.
From stdpp Require Import base option list gmap strings.

Local Open Scope Z_scope.

(** ** Python values and exceptions *)

(** The values that reach this code: status fields read from the device and
    service parameters are JSON scalars ([None], [bool], [int], [str]; floats
    are not modelled); the decoder also accepts [bytes].  A byte is an
    integer in [0, 255]; a character of a [str] is a code point below 256. *)
Inductive pyval : Type :=
  | PNone
  | PBool (b : bool)
  | PInt (n : Z)
  | PStr (s : string)
  | PBytes (bs : list Z).

(** Exceptions raised in this module.  Every one of them is a subclass of
    Python's [Exception], so an [except Exception] clause catches each.
    [BinasciiError] is [binascii.Error]; [DeviceError] stands for whatever
    the device client raises when a write does not go through. *)
Inductive exn : Type :=
  | NameError (name : string)
  | TypeError (msg : string)
  | IndexError (msg : string)
  | ValueError (msg : string)
  | AttributeError (msg : string)
  | BinasciiError (msg : string)
  | DeviceError (msg : string).

Inductive result (A : Type) : Type :=
  | Ret (a : A)
  | Raise (e : exn).
Arguments Ret {A} a.
Arguments Raise {A} e.

Module Res.
Definition bind {A B} (m : result A) (k : A -> result B) : result B :=
  match m with
  | Ret a => k a
  | Raise e => Raise e
  end.

(** [try: body except Exception as e: handler e] *)
Definition try_except {A} (body : result A) (handler : exn -> result A)
  : result A :=
  match body with
  | Ret a => Ret a
  | Raise e => handler e
  end.
End Res.

#[global] Instance result_ret : MRet result := @Ret.
#[global] Instance result_bind : MBind result := fun A B k m => Res.bind m k.

(** ** [base64.b64decode] on a [str] argument

    The standard library's decoder in its default, lenient mode, after
    CPython's [binascii.a2b_base64]: the argument must be ASCII; characters
    outside the alphabet are skipped; a complete pad sequence ends the
    input; an incomplete final quad is an error.  The properties below use
    of it only that it returns bytes or raises. *)

Definition b64_digit (c : ascii) : option Z :=
  let n := Z.of_N (N_of_ascii c) in
  if (65 <=? n) && (n <=? 90) then Some (n - 65)
  else if (97 <=? n) && (n <=? 122) then Some (n - 71)
  else if (48 <=? n) && (n <=? 57) then Some (n + 4)
  else if n =? 43 then Some 62
  else if n =? 47 then Some 63
  else None.

(** [str(n)] for an integer *)
Definition str_int (n : Z) : string := NilZero.string_of_int (Z.to_int n).

Definition is_pad (c : ascii) : bool := (N_of_ascii c =? 61)%N.

Fixpoint a2b_base64 (s : list ascii) (quad_pos : nat) (leftchar : Z)
    (pads : nat) (out : list Z) : result (list Z) :=
  match s with
  | [] =>
      match quad_pos with
      | O => Ret out
      | 1%nat => Raise (BinasciiError
          ("Invalid base64-encoded string: number of data characters ("
           +:+ str_int (Z.of_nat (length out / 3 * 4 + 1))
           +:+ ") cannot be 1 more than a multiple of 4"))
      | _ => Raise (BinasciiError "Incorrect padding")
      end
  | c :: rest =>
      if is_pad c then
        if (2 <=? quad_pos)%nat then
          if (4 <=? quad_pos + S pads)%nat then Ret out
          else a2b_base64 rest quad_pos leftchar (S pads) out
        else a2b_base64 rest quad_pos leftchar pads out
      else
        match b64_digit c with
        | None => a2b_base64 rest quad_pos leftchar pads out
        | Some d =>
            match quad_pos with
            | O => a2b_base64 rest 1 d 0 out
            | 1%nat =>
                a2b_base64 rest 2 (Z.land d 0x0f) 0
                  (out ++ [Z.lor (Z.shiftl leftchar 2) (Z.shiftr d 4)])
            | 2%nat =>
                a2b_base64 rest 3 (Z.land d 0x03) 0
                  (out ++ [Z.lor (Z.shiftl leftchar 4) (Z.shiftr d 2)])
            | _ =>
                a2b_base64 rest 0 0 0
                  (out ++ [Z.lor (Z.shiftl leftchar 6) d])
            end
        end
  end.

Definition is_ascii_str (s : string) : bool :=
  forallb (fun c => (N_of_ascii c <? 128)%N) (list_ascii_of_string s).

Definition b64decode (s : string) : result (list Z) :=
  if is_ascii_str s then a2b_base64 (list_ascii_of_string s) 0 0 0 []
  else Raise (ValueError "string argument should contain only ASCII characters").

(** ** The status decoder *)

Inductive RobovacState : Type :=
  | CLEANING
  | ROOM_CLEANING
  | PAUSED
  | RETURNING
  | DOCKED
  | ERROR
  | UNKNOWN.

#[global] Instance RobovacState_eq_dec : EqDecision RobovacState.
Proof. solve_decision. Defined.

(** [decoded[i]] on a [bytes] object *)
Definition getitem (decoded : list Z) (i : nat) : result Z :=
  match nth_error decoded i with
  | Some b => Ret b
  | None => Raise (IndexError "index out of range")
  end.

Definition len (decoded : list Z) : Z := Z.of_nat (length decoded).

(** Python's short-circuit [a and b]: [b] is evaluated, and may raise, only
    when [a] holds. *)
Definition py_and (a b : result bool) : result bool :=
  x ← a; if x : bool then b else Ret false.
Infix "&&&" := py_and (at level 40, left associativity).

(** [len(decoded) >= n] and [decoded[i] == v] *)
Definition len_ge (decoded : list Z) (n : Z) : result bool :=
  Ret (n <=? len decoded).
Definition byte_is (decoded : list Z) (i : nat) (v : Z) : result bool :=
  b ← getitem decoded i; Ret (b =? v).

#[global] Arguments py_and : simpl never.
#[global] Arguments len_ge : simpl never.
#[global] Arguments byte_is : simpl never.
#[global] Arguments getitem : simpl never.
#[global] Arguments len : simpl never.

(** [_get_docked_substatus] *)
Definition _get_docked_substatus (decoded : list Z) : result string :=
  if len decoded <? 3 then Ret "unknown"%string
  else
    byte1 ← getitem decoded 1;
    byte2 ← getitem decoded 2;
    (* the part after the [byte1 == 0x10] block *)
    let rest : result string :=
      if (byte1 =? 0x0a) && (byte2 =? 0x00) then
        c ← len_ge decoded 5 &&& byte_is decoded 3 0x10 &&& byte_is decoded 4 0x09;
        if c : bool then
          p ← len_ge decoded 12 &&& byte_is decoded 11 0x3a;
          if p : bool then Ret "mop_washing_pre"%string
          else Ret "water_refilling"%string
        else Ret "idle"%string
      else Ret "idle"%string in
    if byte1 =? 0x10 then
      if byte2 =? 0x03 then
        if 5 <=? len decoded then
          b4 ← getitem decoded 4;
          if b4 =? 0x00 then Ret "charging"%string
          else if b4 =? 0x02 then Ret "fully_charged"%string
          else Ret "charging"%string
        else Ret "charging"%string
      else if byte2 =? 0x09 then
        if 4 <=? len decoded then
          byte3 ← getitem decoded 3;
          if byte3 =? 0xfa then Ret "dust_collecting"%string
          else if byte3 =? 0x1a then Ret "mop_drying"%string
          else if byte3 =? 0x3a then Ret "mop_washing"%string
          else Ret "mop_operations"%string
        else Ret "mop_operations"%string
      else rest
    else rest.

(** [type(v).__name__], as it appears in the messages of [TypeError] *)
Definition type_name (v : pyval) : string :=
  match v with
  | PNone => "NoneType"
  | PBool _ => "bool"
  | PInt _ => "int"
  | PStr _ => "str"
  | PBytes _ => "bytes"
  end.

(** The value [decode_dps153_to_state] works on: a [str] argument is
    base64-decoded, [bytes] are taken as they are, and any other value
    fails at [len(decoded)]. *)
Definition decoded_of (dps153_value : pyval) : result (list Z) :=
  match dps153_value with
  | PStr s => b64decode s
  | PBytes bs => Ret bs
  | v => Raise (TypeError ("object of type '" +:+ type_name v +:+ "' has no len()"))
  end.

(** The body of the [try] block from the length check on, as a function of
    what evaluating the name [byte0] yields.  The statements of the
    [byte1 == 0x0a] block either return or fall through; [None] is the
    fall-through. *)
Definition decode_rules (byte0 : result Z) (decoded : list Z)
  : result (RobovacState * string) :=
  if len decoded <? 3 then Ret (UNKNOWN, "unknown"%string)
  else
    byte1 ← getitem decoded 1;
    byte2 ← getitem decoded 2;
    room ← (b0 ← byte0; Ret (b0 =? 0x06))
             &&& Ret (byte1 =? 0x10) &&& Ret (byte2 =? 0x03);
    if room : bool then Ret (ROOM_CLEANING, "cleaning"%string)
    else
      blk ← (if byte1 =? 0x0a then
               if 5 <=? len decoded then
                 byte3 ← getitem decoded 3;
                 byte4 ← getitem decoded 4;
                 if byte2 =? 0x00 then
                   if (byte3 =? 0x10) && (byte4 =? 0x05) then
                     p ← len_ge decoded 7 &&& byte_is decoded 6 0x02;
                     if p : bool then Ret (Some (PAUSED, "paused"%string))
                     else Ret (Some (CLEANING, "cleaning"%string))
                   else if (byte3 =? 0x10) && (byte4 =? 0x09) then
                     substatus ← _get_docked_substatus decoded;
                     Ret (Some (DOCKED, substatus))
                   else Ret None
                 else Ret None
               else Ret None
             else Ret None);
      match blk with
      | Some r => Ret r
      | None =>
          returning ← (if (byte1 =? 0x10) && (byte2 =? 0x07)
                       then len_ge decoded 4 &&& byte_is decoded 3 0x42
                       else Ret false);
          if returning : bool then Ret (RETURNING, "returning"%string)
          else if byte1 =? 0x10 then
            substatus ← _get_docked_substatus decoded;
            Ret (DOCKED, substatus)
          else Ret (DOCKED, "idle"%string)
      end.

(** Line 106 reads the name [byte0].  The function assigns [byte1] and
    [byte2] only, the module binds no such global and it is no builtin, so
    evaluating the name raises [NameError]. *)
Definition byte0 : result Z := Raise (NameError "byte0").

(** [decode_dps153_to_state]: the [try] block and its [except Exception]
    handler. *)
Definition decode_dps153_to_state (dps153_value : pyval)
  : result (RobovacState * string) :=
  Res.try_except
    (decoded ← decoded_of dps153_value; decode_rules byte0 decoded)
    (fun _ => Ret (UNKNOWN, "error"%string)).

(** ** Constant tables *)

(** A dictionary display [{k1: v1, k2: v2, ...}]: entries are stored left
    to right, a later entry replacing an earlier one with the same key. *)
Definition dict_of {V} (entries : list (string * V)) : gmap string V :=
  foldl (fun m kv => <[kv.1 := kv.2]> m) ∅ entries.

Definition HA_TO_EUFY_FAN_SPEED_MAP : gmap string (string * string) :=
  dict_of [ ("Quiet", ("gentle", "Quiet"));
            ("Standard", ("normal", "Standard"));
            ("Turbo", ("strong", "Turbo"));
            ("Maximum", ("max", "Max")) ]%string.

Definition EUFY_TO_HA_FAN_SPEED_MAP : gmap string string :=
  dict_of [ ("gentle", "Quiet");
            ("normal", "Standard");
            ("strong", "Turbo");
            ("max", "Maximum");
            ("Quiet", "Quiet");
            ("Standard", "Standard");
            ("Turbo", "Turbo");
            ("Max", "Maximum");
            ("middle", "Standard") ]%string.

Definition fan_speed_list : list string :=
  [ "Quiet"; "Standard"; "Turbo"; "Maximum" ]%string.

(** The dictionary [S1_PRO_COMMANDS], one constant per key; the key
    ["return"] is spelt [return_]. *)
Module S1_PRO_COMMANDS.
Definition start : string := "AA==".
Definition cleaning : string := "AggO".
Definition pause : string := "AggN".
Definition return_ : string := "AggG".
End S1_PRO_COMMANDS.

(** ** Python operators on values *)

Definition py_truthy (v : pyval) : bool :=
  match v with
  | PNone => false
  | PBool b => b
  | PInt n => negb (n =? 0)
  | PStr s => negb (String.eqb s EmptyString)
  | PBytes bs => match bs with [] => false | _ => true end
  end.

(** [isinstance(v, int)]: [bool] is a subclass of [int]. *)
Definition as_int (v : pyval) : option Z :=
  match v with
  | PInt n => Some n
  | PBool b => Some (if b then 1 else 0)
  | _ => None
  end.

Definition isinstance_int (v : pyval) : bool :=
  match as_int v with Some _ => true | None => false end.

(** [a == b] *)
Definition py_eq (a b : pyval) : bool :=
  match as_int a, as_int b with
  | Some x, Some y => x =? y
  | _, _ =>
      match a, b with
      | PNone, PNone => true
      | PStr s, PStr t => String.eqb s t
      | PBytes x, PBytes y => bool_decide (x = y)
      | _, _ => false
      end
  end.

(** [v >= n] for an integer literal [n] *)
Definition py_ge (v : pyval) (n : Z) : result bool :=
  match as_int v with
  | Some x => Ret (n <=? x)
  | None => Raise (TypeError ("'>=' not supported between instances of '"
                              +:+ type_name v +:+ "' and 'int'"))
  end.


(** [str(v)], also what an f-string field [{v}] renders.  For [bytes] this
    is the [b'...'] literal form. *)
Definition hex_digit (n : Z) : ascii :=
  ascii_of_N (Z.to_N (if n <? 10 then 48 + n else 87 + n)).

Definition bytes_repr_char (quote : Z) (c : Z) : string :=
  let lit (n : Z) := String (ascii_of_N (Z.to_N n)) EmptyString in
  if (c =? quote) || (c =? 92) then lit 92 +:+ lit c
  else if c =? 9 then "\t"
  else if c =? 10 then "\n"
  else if c =? 13 then "\r"
  else if (c <? 32) || (127 <=? c) then
    "\x" +:+ String (hex_digit (c / 16)) (String (hex_digit (c mod 16)) EmptyString)
  else lit c.

Definition bytes_repr (bs : list Z) : string :=
  let has (c : Z) := existsb (Z.eqb c) bs in
  let quote := if has 39 && negb (has 34) then 34 else 39 in
  let q := String (ascii_of_N (Z.to_N quote)) EmptyString in
  "b" +:+ q +:+ String.concat EmptyString (map (bytes_repr_char quote) bs) +:+ q.

Definition py_str (v : pyval) : string :=
  match v with
  | PNone => "None"
  | PBool b => if b then "True" else "False"
  | PInt n => str_int n
  | PStr s => s
  | PBytes bs => bytes_repr bs
  end.

(** ** The entity, its coordinator and the device *)

Module VacuumActivity.
Inductive t : Type := CLEANING | DOCKED | IDLE | PAUSED | RETURNING | ERROR.
End VacuumActivity.

#[global] Instance VacuumActivity_eq_dec : EqDecision VacuumActivity.t.
Proof. solve_decision. Defined.

(** What the code does to the outside, in order: device writes
    ([tuya_client.async_set], with the fault it ran into, if any), waits
    ([asyncio.sleep], in milliseconds) and refresh requests
    ([coordinator.async_request_refresh]). *)
Inductive event : Type :=
  | EvWrite (payload : list (string * pyval)) (fault : option string)
  | EvSleep (ms : Z)
  | EvRefresh.

(** One record for everything a method of [RobovacVacuum] reads or changes:
    the entity's attributes, [self.coordinator.data] ([None] when [data] is
    Python's [None]), the room table under [CONF_ROOM_MAPPINGS] in the
    options of the config entry ([None] when the key is absent; a JSON
    object, so an ordered list of entries), the [trace] of events so far,
    and the behaviour of the environment: [write_faults] holds the outcome
    of the coming writes ([Some msg] fails with that message; a write
    succeeds once the list is used up) and [polls] what the coming
    refreshes store in [data] ([None] leaves it as it is).  The attribute
    [_last_command_time] is written once and read nowhere; it is left
    out. *)
Record World : Type := mkWorld {
  _last_command : option string;
  _was_paused : bool;
  _substatus : option string;
  _detected_state : option RobovacState;
  data : option (gmap string pyval);
  room_mappings : option (list (string * pyval));
  trace : list event;
  write_faults : list (option string);
  polls : list (option (gmap string pyval));
}.

Definition set_last_command (v : option string) (w : World) : World :=
  mkWorld v (_was_paused w) (_substatus w) (_detected_state w) (data w)
          (room_mappings w) (trace w) (write_faults w) (polls w).
Definition set_was_paused (v : bool) (w : World) : World :=
  mkWorld (_last_command w) v (_substatus w) (_detected_state w) (data w)
          (room_mappings w) (trace w) (write_faults w) (polls w).
Definition set_substatus (v : option string) (w : World) : World :=
  mkWorld (_last_command w) (_was_paused w) v (_detected_state w) (data w)
          (room_mappings w) (trace w) (write_faults w) (polls w).
Definition set_detected_state (v : option RobovacState) (w : World) : World :=
  mkWorld (_last_command w) (_was_paused w) (_substatus w) v (data w)
          (room_mappings w) (trace w) (write_faults w) (polls w).
Definition set_data (v : option (gmap string pyval)) (w : World) : World :=
  mkWorld (_last_command w) (_was_paused w) (_substatus w) (_detected_state w)
          v (room_mappings w) (trace w) (write_faults w) (polls w).
Definition set_trace (v : list event) (w : World) : World :=
  mkWorld (_last_command w) (_was_paused w) (_substatus w) (_detected_state w)
          (data w) (room_mappings w) v (write_faults w) (polls w).
Definition set_write_faults (v : list (option string)) (w : World) : World :=
  mkWorld (_last_command w) (_was_paused w) (_substatus w) (_detected_state w)
          (data w) (room_mappings w) (trace w) v (polls w).
Definition set_polls (v : list (option (gmap string pyval))) (w : World)
  : World :=
  mkWorld (_last_command w) (_was_paused w) (_substatus w) (_detected_state w)
          (data w) (room_mappings w) (trace w) (write_faults w) v.

(** Computations that read and change the world and may raise.  Changes
    made before an exception stay in place. *)
Definition M (A : Type) : Type := World -> result A * World.

#[global] Instance M_ret : MRet M := fun A a w => (Ret a, w).
#[global] Instance M_bind : MBind M := fun A B k m w =>
  match m w with
  | (Ret a, w') => k a w'
  | (Raise e, w') => (Raise e, w')
  end.

Definition ask {A} (f : World -> A) : M A := fun w => (Ret (f w), w).
Definition modify (f : World -> World) : M unit := fun w => (Ret tt, f w).
Definition raise {A} (e : exn) : M A := fun w => (Raise e, w).
Definition liftR {A} (r : result A) : M A := fun w => (r, w).

(** [try: body except Exception as e: handler e] *)
Definition try_except {A} (body : M A) (handler : exn -> M A) : M A :=
  fun w =>
    match body w with
    | (Ret a, w') => (Ret a, w')
    | (Raise e, w') => handler e w'
    end.

Definition emit (ev : event) : M unit :=
  modify (fun w => set_trace (trace w ++ [ev]) w).

(** [await self.coordinator.tuya_client.async_set(payload)] *)
Definition async_set (payload : list (string * pyval)) : M unit :=
  fun w =>
    match write_faults w with
    | Some msg :: rest =>
        (Raise (DeviceError msg),
         set_write_faults rest
           (set_trace (trace w ++ [EvWrite payload (Some msg)]) w))
    | None :: rest =>
        (Ret tt,
         set_write_faults rest (set_trace (trace w ++ [EvWrite payload None]) w))
    | [] => (Ret tt, set_trace (trace w ++ [EvWrite payload None]) w)
    end.

(** [await asyncio.sleep(ms / 1000)] *)
Definition sleep (ms : Z) : M unit := emit (EvSleep ms).

(** [await self.coordinator.async_request_refresh()]: failures of the
    update are logged by the coordinator, not raised. *)
Definition async_request_refresh : M unit :=
  fun w =>
    let w1 := set_trace (trace w ++ [EvRefresh]) w in
    match polls w1 with
    | Some d :: rest => (Ret tt, set_polls rest (set_data (Some d) w1))
    | None :: rest => (Ret tt, set_polls rest w1)
    | [] => (Ret tt, w1)
    end.

(** Truth value of [self.coordinator.data]: [None] and the empty mapping
    are false. *)
Definition data_truthy (d : option (gmap string pyval)) : bool :=
  match d with
  | None => false
  | Some m => bool_decide (m ≠ ∅)
  end.

(** [self.coordinator.data.get(key, dflt)] *)
Definition data_get (key : string) (dflt : pyval) : M pyval :=
  fun w =>
    match data w with
    | Some m => (Ret (default dflt (m !! key)), w)
    | None =>
        (Raise (AttributeError "'NoneType' object has no attribute 'get'"), w)
    end.

(** ** Properties of [RobovacVacuum] *)

(** [activity]: a property, yet it stores what it found in the entity. *)
Definition activity : M (option VacuumActivity.t) :=
  d ← ask data;
  if negb (data_truthy d) then mret None
  else
    dps6 ← data_get "6" (PInt 0);
    dps153 ← data_get "153" (PStr EmptyString);
    is_error ← liftR (Ret (isinstance_int dps6) &&& py_ge dps6 100);
    if is_error : bool then
      modify (set_detected_state (Some ERROR));;
      modify (set_substatus (Some "error"%string));;
      mret (Some VacuumActivity.ERROR)
    else if py_truthy dps153 then
      '(detected_state, substatus) ← liftR (decode_dps153_to_state dps153);
      modify (set_detected_state (Some detected_state));;
      modify (set_substatus (Some substatus));;
      match detected_state with
      | CLEANING =>
          modify (set_was_paused false);; mret (Some VacuumActivity.CLEANING)
      | ROOM_CLEANING =>
          modify (set_was_paused false);; mret (Some VacuumActivity.CLEANING)
      | PAUSED =>
          modify (set_was_paused true);; mret (Some VacuumActivity.PAUSED)
      | RETURNING =>
          modify (set_was_paused false);; mret (Some VacuumActivity.RETURNING)
      | DOCKED =>
          modify (set_was_paused false);; mret (Some VacuumActivity.DOCKED)
      | ERROR => mret (Some VacuumActivity.ERROR)
      | UNKNOWN => mret (Some VacuumActivity.IDLE)
      end
    else
      dps152 ← data_get "152" (PStr EmptyString);
      dps6 ← data_get "6" (PInt 0);
      dps7 ← data_get "7" (PInt 0);
      if py_eq dps152 (PStr S1_PRO_COMMANDS.cleaning)
         || py_eq dps152 (PStr "AggO") then
        modify (set_was_paused false);; mret (Some VacuumActivity.CLEANING)
      else if py_eq dps152 (PStr S1_PRO_COMMANDS.pause)
              || py_eq dps152 (PStr "AggN") then
        modify (set_was_paused true);; mret (Some VacuumActivity.PAUSED)
      else if py_eq dps152 (PStr S1_PRO_COMMANDS.return_)
              || py_eq dps152 (PStr "AggG") then
        modify (set_was_paused false);; mret (Some VacuumActivity.RETURNING)
      else if py_eq dps6 (PInt 2) && py_eq dps7 (PInt 3) then
        modify (set_was_paused false);; mret (Some VacuumActivity.CLEANING)
      else if py_eq dps6 (PInt 3) && py_eq dps7 (PInt 4) then
        modify (set_was_paused true);; mret (Some VacuumActivity.PAUSED)
      else if py_eq dps6 (PInt 1) && py_eq dps7 (PInt 2) then
        modify (set_was_paused false);; mret (Some VacuumActivity.RETURNING)
      else if py_eq dps6 (PInt 0) && py_eq dps7 (PInt 0) then
        battery ← data_get "8" (PInt 0);
        full ← liftR (py_ge battery 95);
        if full : bool then mret (Some VacuumActivity.DOCKED)
        else mret (Some VacuumActivity.IDLE)
      else mret (Some VacuumActivity.IDLE).

(** [_is_running]: reads only; its result goes to the log. *)
Definition _is_running : M bool :=
  d ← ask data;
  if data_truthy d then
    dps153 ← data_get "153" (PStr EmptyString);
    if py_truthy dps153 then
      '(detected_state, _) ← liftR (decode_dps153_to_state dps153);
      mret (bool_decide (detected_state ∈ [CLEANING; ROOM_CLEANING]))
    else
      dps152 ← data_get "152" (PStr EmptyString);
      if py_eq dps152 (PStr S1_PRO_COMMANDS.cleaning)
         || py_eq dps152 (PStr "AggO") then mret true
      else
        dps6 ← data_get "6" (PInt 0);
        dps7 ← data_get "7" (PInt 0);
        mret (py_eq dps6 (PInt 2) && py_eq dps7 (PInt 3))
  else mret false.

(** [error_code] *)
Definition error_code (w : World) : option string :=
  if data_truthy (data w) then
    let error_code := default PNone (default ∅ (data w) !! "6"%string) in
    match (Ret (isinstance_int error_code) &&& py_ge error_code 100) with
    | Ret true => Some (py_str error_code)
    | _ => None
    end
  else None.

(** [key in EUFY_TO_HA_FAN_SPEED_MAP] for an arbitrary value: the keys are
    strings, and only a string equals a string. *)
Definition eufy_to_ha (raw_speed : pyval) : option string :=
  match raw_speed with
  | PStr s => EUFY_TO_HA_FAN_SPEED_MAP !! s
  | _ => None
  end.

(** [fan_speed] *)
Definition fan_speed (w : World) : option string :=
  if data_truthy (data w) then
    let m := default ∅ (data w) in
    let raw_speed := default PNone (m !! "9"%string) in
    match (if py_truthy raw_speed then eufy_to_ha raw_speed else None) with
    | Some level => Some level
    | None =>
        let raw_speed := default PNone (m !! "158"%string) in
        if py_truthy raw_speed then eufy_to_ha raw_speed else None
    end
  else None.

(** ** Commands *)

(** [_send_command]: the handler logs and re-raises. *)
Definition _send_command (command : string) : M unit :=
  try_except
    (modify (set_last_command (Some command));;
     async_set [("152"%string, PStr command)];;
     sleep 500;;
     (if String.eqb command S1_PRO_COMMANDS.start then
        async_set [("5"%string, PStr "smart")]
      else if String.eqb command S1_PRO_COMMANDS.pause then
        async_set [("5"%string, PStr "pause")]
      else if String.eqb command S1_PRO_COMMANDS.return_ then
        async_set [("5"%string, PStr "charge")]
      else mret tt);;
     sleep 1000;;
     async_request_refresh)
    (fun e => raise e).

(** [async_turn_on]: the fresh-start sequence. *)
Definition async_turn_on : M unit :=
  try_except
    (modify (set_was_paused false);;
     _send_command S1_PRO_COMMANDS.start;;
     sleep 2000;;
     _send_command S1_PRO_COMMANDS.cleaning;;
     async_request_refresh;;
     _ ← _is_running;
     mret tt)
    (fun e => raise e).

(** [async_start] *)
Definition async_start : M unit :=
  activity ← activity;
  current_dps152 ← data_get "152" (PStr EmptyString);
  current_dps153 ← data_get "153" (PStr EmptyString);
  is_paused_by_dps153 ←
    (if py_truthy current_dps153 then
       '(detected_state, _) ← liftR (decode_dps153_to_state current_dps153);
       mret (bool_decide (detected_state = PAUSED))
     else mret false);
  was_paused ← ask _was_paused;
  if bool_decide (activity = Some VacuumActivity.PAUSED)
     || was_paused
     || is_paused_by_dps153
     || py_eq current_dps152 (PStr S1_PRO_COMMANDS.pause) then
    _send_command S1_PRO_COMMANDS.cleaning;;
    modify (set_was_paused false)
  else async_turn_on.

(** [async_pause]: the handler logs, resets the flag and returns. *)
Definition async_pause : M unit :=
  try_except
    (modify (set_was_paused true);;
     _send_command S1_PRO_COMMANDS.pause)
    (fun _ => modify (set_was_paused false)).

(** [async_stop] *)
Definition async_stop : M unit := async_pause.

(** [async_return_to_base]: the handler logs and returns. *)
Definition async_return_to_base : M unit :=
  try_except
    (modify (set_was_paused false);;
     _send_command S1_PRO_COMMANDS.return_)
    (fun _ => mret tt).

(** [async_set_fan_speed]: one write carrying both tokens; an unknown
    level is logged and ignored, and so is a failing write. *)
Definition async_set_fan_speed (fan_speed : string) : M unit :=
  match HA_TO_EUFY_FAN_SPEED_MAP !! fan_speed with
  | None => mret tt
  | Some (dps9_value, dps158_value) =>
      try_except
        (async_set [("9"%string, PStr dps9_value);
                    ("158"%string, PStr dps158_value)])
        (fun _ => mret tt)
  end.

(** *** Room cleaning *)

Definition nl : string := String "010"%char EmptyString.

Definition no_room_mappings_message : string :=
  "No room mappings configured. Please add room mappings by:" +:+ nl +:+
  "1. Go to Settings -> Devices & Services -> Eufy RoboVac S1 Pro" +:+ nl +:+
  "2. Click 'Configure' on the integration" +:+ nl +:+
  "3. Add your room mappings in JSON format" +:+ nl +:+
  nl +:+
  "To get DPS 173 values:" +:+ nl +:+
  "1. Enable debug logging for custom_components.eufy_robovac_s1_pro" +:+ nl +:+
  "2. Use the Eufy app to start cleaning a specific room" +:+ nl +:+
  "3. Find the DPS 173 value in Home Assistant logs" +:+ nl +:+
  "4. Add it to the room mappings configuration".

(** [", ".join(room_dps173_map.keys())] *)
Definition available_rooms (room_dps173_map : list (string * pyval)) : string :=
  String.concat ", " (map fst room_dps173_map).

Definition room_not_found_message (room_id : pyval)
    (room_dps173_map : list (string * pyval)) : string :=
  let available := available_rooms room_dps173_map in
  "Room ID '" +:+ py_str room_id +:+ "' not found in configured rooms. " +:+
  "Available rooms: " +:+
  (if String.eqb available EmptyString then "none" else available) +:+ ". " +:+
  "Please add this room via Settings -> Devices & Services -> " +:+
  "Eufy RoboVac S1 Pro -> Configure.".

(** [room_dps173_map[key]] on the entries of the table, which a dictionary
    keeps in insertion order and with distinct keys. *)
Fixpoint room_lookup (key : string) (room_dps173_map : list (string * pyval))
  : option pyval :=
  match room_dps173_map with
  | [] => None
  | (k, v) :: rest => if String.eqb key k then Some v else room_lookup key rest
  end.

(** The [try] block of [_handle_clean_room_command], entered once the room
    is found: the selection payload, then the fresh-start sequence; the
    handler logs and re-raises. *)
Definition room_sequence (dps173_value : pyval) : M unit :=
  try_except
    (async_set [("173"%string, dps173_value)];;
     sleep 500;;
     modify (set_was_paused false);;
     _send_command S1_PRO_COMMANDS.start;;
     sleep 2000;;
     _send_command S1_PRO_COMMANDS.cleaning;;
     async_request_refresh;;
     _ ← _is_running;
     mret tt)
    (fun e => raise e).

(** [_handle_clean_room_command] *)
Definition _handle_clean_room_command (params : option (gmap string pyval))
  : M unit :=
  match params ≫= (fun p => p !! "room_id"%string) with
  | None => raise (ValueError "room_id parameter is required")
  | Some room_id =>
      configured ← ask room_mappings;
      let room_dps173_map := default [] configured in
      match room_dps173_map with
      | [] => raise (ValueError no_room_mappings_message)
      | _ =>
          match room_lookup (py_str room_id) room_dps173_map with
          | None =>
              raise (ValueError (room_not_found_message room_id room_dps173_map))
          | Some dps173_value =>
              room_sequence dps173_value
          end
      end
  end.

(** [async_send_command] *)
Definition async_send_command (command : string)
    (params : option (gmap string pyval)) : M unit :=
  if String.eqb command "clean_room" then _handle_clean_room_command params
  else raise (ValueError ("Unsupported command: " +:+ command)).

(** The user intents and the method each one runs.  Room cleaning arrives
    as [async_send_command("clean_room", {"room_id": room_id})]. *)
Inductive intent : Type :=
  | Start
  | Pause
  | Stop
  | Return
  | CleanRoom (room_id : pyval).

Definition run_intent (i : intent) : M unit :=
  match i with
  | Start => async_start
  | Pause => async_pause
  | Stop => async_stop
  | Return => async_return_to_base
  | CleanRoom room_id =>
      async_send_command "clean_room" (Some {[ "room_id"%string := room_id ]})
  end.

(** The events a run added to the trace, given the trace it started from. *)
Definition new_events (before after : World) : list event :=
  drop (length (trace before)) (trace after).

Definition is_write (ev : event) : bool :=
  match ev with EvWrite _ _ => true | _ => false end.

Definition writes (evs : list event) : list event := List.filter is_write evs.

(** ** Further members of the module *)

(** [SUBSTATUS_DESCRIPTIONS] *)
Definition SUBSTATUS_DESCRIPTIONS : gmap string string :=
  dict_of [ ("charging", "Charging");
            ("fully_charged", "Fully Charged");
            ("dust_collecting", "Collecting Dust");
            ("water_refilling", "Refilling Water");
            ("mop_washing_pre", "Pre-washing Mop");
            ("mop_washing", "Washing Mop");
            ("mop_drying", "Drying Mop");
            ("mop_operations", "Mop Operations");
            ("cleaning", "Cleaning");
            ("paused", "Paused");
            ("returning", "Returning to Dock");
            ("idle", "Idle");
            ("unknown", "Unknown");
            ("error", "Error") ]%string.

(** [icon]: it evaluates [activity], with all that this stores. *)
Definition icon : M string :=
  act ← activity;
  if bool_decide (act = Some VacuumActivity.ERROR)
  then mret "mdi:robot-vacuum-alert"%string
  else mret "mdi:robot-vacuum"%string.

(** [int(value)] on the values of [pyval].  An [int] is returned as it is,
    a [bool] as 0 or 1, [None] is a [TypeError].  What Python's parser
    makes of a [str] or [bytes] argument is the parameter [int_of_text],
    [None] standing for the [ValueError] of a text that is no integer
    literal.  A [float] is no [pyval]: [int] truncates a finite one, and
    raises [ValueError] on a NaN and [OverflowError] on an infinity, which
    the handler of [battery_level] does not catch. *)
Definition py_int (int_of_text : pyval -> option Z) (value : pyval) : result Z :=
  match value with
  | PInt n => Ret n
  | PBool b => Ret (if b then 1 else 0)
  | PNone =>
      Raise (TypeError
        "int() argument must be a string, a bytes-like object or a real number, not 'NoneType'")
  | PStr _ | PBytes _ =>
      match int_of_text value with
      | Some n => Ret n
      | None => Raise (ValueError "invalid literal for int() with base 10")
      end
  end.

(** [except (ValueError, TypeError)] *)
Definition is_value_or_type_error (e : exn) : bool :=
  match e with
  | ValueError _ | TypeError _ => true
  | _ => false
  end.

(** One [try] block of [battery_level], for a [value] that is not [None]:
    [Some battery] is the [return] inside the block, [None] the fall through,
    also after [pass] in the handler. *)
Definition battery_reading (int_of_text : pyval -> option Z) (value : pyval)
  : result (option Z) :=
  match (battery ← py_int int_of_text value;
         Ret (if (0 <=? battery) && (battery <=? 100) then Some battery
              else None)) with
  | Ret r => Ret r
  | Raise e => if is_value_or_type_error e then Ret None else Raise e
  end.

(** [self.coordinator.data.get(key)] followed by [if value is not None] *)
Definition battery_field (int_of_text : pyval -> option Z)
    (m : gmap string pyval) (key : string) : result (option Z) :=
  match m !! key with
  | None | Some PNone => Ret None
  | Some value => battery_reading int_of_text value
  end.

(** [battery_level] *)
Definition battery_level (int_of_text : pyval -> option Z) (w : World)
  : result (option Z) :=
  if data_truthy (data w) then
    let m := default ∅ (data w) in
    first ← battery_field int_of_text m "8";
    match first with
    | Some battery => Ret (Some battery)
    | None => battery_field int_of_text m "163"
    end
  else Ret None.

(** [async_turn_off] *)
Definition async_turn_off : M unit := async_pause.

(** [async_clean_spot] and [async_locate]: a log line, nothing else. *)
Definition async_clean_spot : M unit := mret tt.
Definition async_locate : M unit := mret tt.

(** ** Expected sequences *)

(** The mode [_send_command] writes to field "5" after a command, and the
    events of [_send_command] when every write goes through. *)
Definition mode_of (command : string) : option string :=
  if String.eqb command S1_PRO_COMMANDS.start then Some "smart"%string
  else if String.eqb command S1_PRO_COMMANDS.pause then Some "pause"%string
  else if String.eqb command S1_PRO_COMMANDS.return_ then Some "charge"%string
  else None.

Definition command_events (command : string) : list event :=
  [EvWrite [("152"%string, PStr command)] None; EvSleep 500] ++
  match mode_of command with
  | Some mode => [EvWrite [("5"%string, PStr mode)] None]
  | None => []
  end ++
  [EvSleep 1000; EvRefresh].

Definition fresh_start_events : list event :=
  command_events S1_PRO_COMMANDS.start ++ [EvSleep 2000] ++
  command_events S1_PRO_COMMANDS.cleaning ++ [EvRefresh].

(** No write that is still to come fails. *)
Definition device_healthy (w : World) : Prop :=
  Forall (fun fault => fault = None) (write_faults w).

(** Whether field "6" of the mapping is an integer of 100 or more. *)
Definition field6_error (m : gmap string pyval) : bool :=
  match m !! "6"%string with
  | Some v =>
      match as_int v with
      | Some n => 100 <=? n
      | None => false
      end
  | None => false
  end.

(** The fields a device that keeps what it is told reports after the
    events: each write that went through stores its payload, a later value
    replacing an earlier one. *)
Definition written_fields (evs : list event) : gmap string pyval :=
  foldl (fun fields ev =>
           match ev with
           | EvWrite payload None =>
               foldl (fun acc kv => <[kv.1 := kv.2]> acc) fields payload
           | _ => fields
           end) ∅ evs.

(** ** Vocabulary of the statements *)

Definition preserves {A F} (f : World -> F) (m : M A) : Prop :=
  forall w, f (m w).2 = f w.

Definition wp {A} (m : M A) (Q : result A -> World -> Prop) (w : World) : Prop :=
  Q (m w).1 (m w).2.

(** Whether the mapping, if any, has a non-empty status blob in field
    "153". *)
Definition has_status_blob (d : option (gmap string pyval)) : bool :=
  py_truthy (default (PStr EmptyString) (default ∅ d !! "153"%string)).

(** What [activity] does to the flag, by what it returns: [flag] is the
    flag before, and [blob] tells whether the mapping has a status blob, in
    which case a [DOCKED] report comes from the blob and otherwise from the
    battery level. *)
Definition activity_flag_post (blob flag : bool)
    (r : result (option VacuumActivity.t)) (w' : World) : Prop :=
  match r with
  | Ret (Some VacuumActivity.PAUSED) => _was_paused w' = true
  | Ret (Some VacuumActivity.CLEANING)
  | Ret (Some VacuumActivity.RETURNING) => _was_paused w' = false
  | Ret (Some VacuumActivity.DOCKED) =>
      _was_paused w' = if blob then false else flag
  | Ret (Some VacuumActivity.IDLE)
  | Ret (Some VacuumActivity.ERROR)
  | Ret None
  | Raise _ => _was_paused w' = flag
  end.

Definition is_fault (ev : event) : bool :=
  match ev with
  | EvWrite _ (Some _) => true
  | _ => false
  end.

Definition no_fault (evs : list event) : Prop :=
  Forall (fun ev => is_fault ev = false) evs.

(** The events of a run and its result: either no write failed, or the
    failed write is the last event and the result is [on_fault] of its
    message. *)
Inductive fault_shape {A} (on_fault : string -> result A)
    (evs : list event) (r : result A) : Prop :=
  | shape_clean : no_fault evs -> fault_shape on_fault evs r
  | shape_fault pre payload msg :
      evs = pre ++ [EvWrite payload (Some msg)] ->
      no_fault pre ->
      r = on_fault msg ->
      fault_shape on_fault evs r.

Definition fault_run {A} (on_fault : string -> result A) (m : M A) : Prop :=
  forall w, exists evs,
    trace (m w).2 = trace w ++ evs /\ fault_shape on_fault evs (m w).1.

(** A failed write ends the run and surfaces as [DeviceError]. *)
Definition fault_propagating {A} (m : M A) : Prop :=
  fault_run (fun msg => Raise (DeviceError msg)) m.

(** A failed write ends the run, which returns normally. *)
Definition fault_absorbing (m : M unit) : Prop :=
  fault_run (fun _ => Ret tt) m.

(** Which intents hand a device fault on to their caller. *)
Definition propagates (i : intent) : bool :=
  match i with
  | Start | CleanRoom _ => true
  | Pause | Stop | Return => false
  end.

Definition on_fault_of (i : intent) (msg : string) : result unit :=
  if propagates i then Raise (DeviceError msg) else Ret tt.

Definition resume_write (fault : option string) : event :=
  EvWrite [("152"%string, PStr S1_PRO_COMMANDS.cleaning)] fault.

Definition occurs_in (sub s : string) : Prop :=
  exists pre post, s = pre +:+ sub +:+ post.

(** On a device whose writes go through, the computation returns, adds
    exactly [evs] to the trace and leaves the device as healthy. *)
Definition clean_run {A} (m : M A) (evs : list event) : Prop :=
  forall w, device_healthy w ->
    exists a, (m w).1 = Ret a /\
              trace (m w).2 = trace w ++ evs /\
              device_healthy (m w).2.

(** The computation returns exactly when no write failed, and raises the
    device's error otherwise. *)
Definition strict_run {A} (m : M A) : Prop :=
  forall w, exists evs,
    trace (m w).2 = trace w ++ evs /\
    ((no_fault evs /\ exists a, (m w).1 = Ret a) \/
     (~ no_fault evs /\ exists msg, (m w).1 = Raise (DeviceError msg))).

(** ** Sample worlds

    Each is a freshly set up entity (no last command, no detected state,
    empty trace and no refresh pending) that differs from the others in
    the flag, the polled mapping, the room table and the faults of the
    device. *)

Definition error_poll : World :=
  mkWorld None false None None
    (Some (dict_of [("6"%string, PInt 150); ("153"%string, PStr "BhADGgIIAQ==")]))
    None [] [] [].

Definition quiet_poll : World :=
  mkWorld None false None None
    (Some (dict_of [("6"%string, PInt 3); ("7"%string, PInt 0)]))
    None [] [] [].

Definition paused_poll : World :=
  mkWorld None false None None
    (Some (dict_of [("152"%string, PStr "AggN")])) None [] [] [].

Definition failing_device : World :=
  mkWorld None false None None (Some ∅) None [] [Some "timeout"%string] [].

Definition room_table : list (string * pyval) :=
  [ ("Kitchen"%string, PStr "MAomCgoK"); ("closet"%string, PStr "NworCgoK") ].

Definition failing_third_write : World :=
  mkWorld None true None None (Some ∅) (Some room_table) []
    [None; None; Some "timeout"%string] [].

Definition cleaning_poll : World :=
  mkWorld None true None None
    (Some (dict_of [("152"%string, PStr "AggO")])) None [] [] [].

Definition configured_rooms : World :=
  mkWorld None false None None (Some ∅) (Some room_table) [] [] [].

Definition no_rooms : World :=
  mkWorld None false None None (Some ∅) None [] [] [].

Definition blob_poll : World :=
  mkWorld None true None None
    (Some (dict_of [("153"%string, PStr "BhADGgIIAQ=="); ("8"%string, PInt 87)]))
    None [] [] [].

Definition returning_poll : World :=
  mkWorld None true None None
    (Some (dict_of [("152"%string, PStr "AggG")])) None [] [] [].

Definition battery_only (level : pyval) : World :=
  mkWorld None true None None (Some (dict_of [("8"%string, level)])) None [] [] [].

Definition battery_polls : World :=
  mkWorld None false None None
    (Some (dict_of [("8"%string, PInt 250); ("163"%string, PInt 64)]))
    None [] [] [].

Definition fan_poll : World :=
  mkWorld None false None None
    (Some (dict_of [("9"%string, PStr "auto"); ("158"%string, PStr "Max")]))
    None [] [] [].

Definition healthy_device : World :=
  mkWorld None true None None (Some ∅) (Some room_table) [] [None; None] [].

Definition docked_poll : World :=
  mkWorld None false None None
    (Some (dict_of [("8"%string, PInt 100)])) None [] [] [].

Definition never_polled : World :=
  mkWorld None true None None None None [] [] [].

Definition failing_pause : World :=
  mkWorld None false None None (Some ∅) None []
    [None; Some "timeout"%string] [].

Definition failing_resume : World :=
  mkWorld None true None None
    (Some (dict_of [("152"%string, PStr "AggN")])) None []
    [Some "timeout"%string] [].

(** * Properties *)

(** ** The status decoder *)

Section Decoder.

Lemma getitem_lt (decoded : list Z) (i : nat) :
  Z.of_nat i < len decoded -> exists b, getitem decoded i = Ret b.
Proof.
  unfold len, getitem. intros Hi.
  destruct (nth_error decoded i) as [b|] eqn:E; [eauto|].
  apply nth_error_None in E. lia.
Qed.

(** A byte test behind its length check never faults. *)
Lemma guarded_byte (decoded : list Z) (n : Z) (i : nat) (v : Z) :
  Z.of_nat i < n ->
  exists c, len_ge decoded n &&& byte_is decoded i v = Ret c.
Proof.
  intros Hi. unfold len_ge, byte_is, py_and. cbn.
  destruct (Z.leb_spec n (len decoded)); [|eauto].
  destruct (getitem_lt decoded i) as [b ->]; [lia|]. cbn. eauto.
Qed.

Lemma guarded_byte2 (decoded : list Z) (n : Z) (i j : nat) (v u : Z) :
  Z.of_nat i < n -> Z.of_nat j < n ->
  exists c,
    len_ge decoded n &&& byte_is decoded i v &&& byte_is decoded j u = Ret c.
Proof.
  intros Hi Hj. unfold len_ge, byte_is, py_and. cbn.
  destruct (Z.leb_spec n (len decoded)); [|cbn; eauto].
  destruct (getitem_lt decoded i) as [b ->]; [lia|].
  destruct (getitem_lt decoded j) as [c ->]; [lia|]. cbn.
  destruct (b =? v); cbn; eauto.
Qed.

Lemma _get_docked_substatus_total (decoded : list Z) :
  exists s, _get_docked_substatus decoded = Ret s.
Proof.
  unfold _get_docked_substatus.
  destruct (Z.ltb_spec (len decoded) 3); [eauto|].
  destruct (getitem_lt decoded 1) as [b1 ->]; [lia|].
  destruct (getitem_lt decoded 2) as [b2 ->]; [lia|]. cbn.
  assert (Hrest : exists s,
    (if (b1 =? 10) && (b2 =? 0)
     then c ← len_ge decoded 5 &&& byte_is decoded 3 16
                &&& byte_is decoded 4 9;
          if c : bool
          then p ← len_ge decoded 12 &&& byte_is decoded 11 58;
               if p : bool then Ret "mop_washing_pre"%string
               else Ret "water_refilling"%string
          else Ret "idle"%string
     else Ret "idle"%string) = Ret s).
  { destruct ((b1 =? 10) && (b2 =? 0)); [|eauto].
    destruct (guarded_byte2 decoded 5 3 4 16 9) as [c ->]; [lia|lia|].
    cbn. destruct c; [|eauto].
    destruct (guarded_byte decoded 12 11 58) as [p ->]; [lia|].
    cbn. destruct p; eauto. }
  destruct (b1 =? 16); [|exact Hrest].
  destruct (b2 =? 3).
  - destruct (Z.leb_spec 5 (len decoded)); [|eauto].
    destruct (getitem_lt decoded 4) as [b4 ->]; [lia|]. cbn.
    destruct (b4 =? 0); [eauto|]. destruct (b4 =? 2); eauto.
  - destruct (b2 =? 9); [|exact Hrest].
    destruct (Z.leb_spec 4 (len decoded)); [|eauto].
    destruct (getitem_lt decoded 3) as [b3 ->]; [lia|]. cbn.
    destruct (b3 =? 250); [eauto|]. destruct (b3 =? 26); [eauto|].
    destruct (b3 =? 58); eauto.
Qed.

(** Once the first byte is at hand, the rule table returns a pair for a
    blob of any length: each access sits behind its length check. *)
Lemma decode_rules_total (b0 : Z) (decoded : list Z) :
  exists st sub, decode_rules (Ret b0) decoded = Ret (st, sub).
Proof.
  unfold decode_rules.
  destruct (Z.ltb_spec (len decoded) 3); [eauto|].
  destruct (getitem_lt decoded 1) as [b1 ->]; [lia|].
  destruct (getitem_lt decoded 2) as [b2 ->]; [lia|]. cbn.
  destruct ((b0 =? 6)); cbn;
    [destruct (b1 =? 16); cbn; [destruct (b2 =? 3); cbn|]|];
    try solve [eauto].
  all: destruct (_get_docked_substatus_total decoded) as [s Hs].
  all: destruct (guarded_byte decoded 7 6 2) as [p Hp]; [lia|].
  all: destruct (guarded_byte decoded 4 3 66) as [r Hr]; [lia|].
  all: repeat first
    [ rewrite Hs | rewrite Hp | rewrite Hr
    | progress cbn
    | match goal with
      | |- context [getitem ?d ?i] =>
          let E := fresh in
          destruct (getitem_lt d i) as [? E]; [lia|]; rewrite E
      | |- context [if ?c then _ else _] => destruct c eqn:?
      | H : (_ <=? _) = true |- _ => apply Z.leb_le in H
      end ];
    eauto.
Qed.

(** The source's function: the name [byte0] is unbound, so every blob of
    three bytes or more ends in the handler. *)
Lemma decode_rules_unbound (decoded : list Z) :
  3 <= len decoded ->
  decode_rules byte0 decoded = Raise (NameError "byte0").
Proof.
  intros H. unfold decode_rules.
  destruct (Z.ltb_spec (len decoded) 3); [lia|].
  destruct (getitem_lt decoded 1) as [b1 ->]; [lia|].
  destruct (getitem_lt decoded 2) as [b2 ->]; [lia|]. reflexivity.
Qed.

Lemma decode_blob_long (bs : list Z) :
  3 <= len bs -> decode_dps153_to_state (PBytes bs) = Ret (UNKNOWN, "error"%string).
Proof.
  intros H. unfold decode_dps153_to_state. cbn.
  rewrite decode_rules_unbound by exact H. reflexivity.
Qed.

Lemma decode_rules_short (b : result Z) (decoded : list Z) :
  len decoded < 3 -> decode_rules b decoded = Ret (UNKNOWN, "unknown"%string).
Proof.
  intros H. unfold decode_rules.
  destruct (Z.ltb_spec (len decoded) 3); [reflexivity|lia].
Qed.

(** Whatever its argument, the decoder returns [UNKNOWN] with substatus
    ["unknown"] or ["error"]. *)
Lemma decode_unknown (v : pyval) :
  decode_dps153_to_state v = Ret (UNKNOWN, "unknown"%string) \/
  decode_dps153_to_state v = Ret (UNKNOWN, "error"%string).
Proof.
  unfold decode_dps153_to_state.
  destruct (decoded_of v) as [decoded|e]; cbn; [|auto].
  destruct (Z.ltb_spec (len decoded) 3).
  - rewrite decode_rules_short by assumption. auto.
  - rewrite decode_rules_unbound by lia. auto.
Qed.

(** With [byte0] bound to the first byte, rule 1 is what the comment at
    line 104 describes. *)
Lemma decode_rules_room (decoded : list Z) :
  3 <= len decoded ->
  getitem decoded 0 = Ret 0x06 ->
  getitem decoded 1 = Ret 0x10 ->
  getitem decoded 2 = Ret 0x03 ->
  decode_rules (getitem decoded 0) decoded = Ret (ROOM_CLEANING, "cleaning"%string).
Proof.
  intros H H0 H1 H2. unfold decode_rules.
  destruct (Z.ltb_spec (len decoded) 3); [lia|].
  rewrite H0, H1, H2. reflexivity.
Qed.

End Decoder.

(** C1.  The claim: a blob that starts 06 10 03 decodes to room cleaning
    with substatus "cleaning".  The code at the claim's own example, the
    seven bytes 06 10 03 1a 02 08 01: the test of rule 1 reads the unbound
    name [byte0], the handler takes over and the decoder answers
    [(UNKNOWN, "error")].  The same rule table with the name bound to the
    first byte gives the claimed result. *)
Theorem room_cleaning_blob_decodes_to_error :
  let blob := [0x06; 0x10; 0x03; 0x1a; 0x02; 0x08; 0x01] in
  decode_dps153_to_state (PBytes blob) = Ret (UNKNOWN, "error"%string) /\
  decode_dps153_to_state (PBytes blob) <> Ret (ROOM_CLEANING, "cleaning"%string) /\
  decode_rules (getitem blob 0) blob = Ret (ROOM_CLEANING, "cleaning"%string).
Proof. cbv zeta. split; [reflexivity|]. split; [discriminate|reflexivity]. Qed.

(** C2.  The claim: a blob with bytes 1 to 4 equal to 0a 00 10 05 decodes to
    paused when it has seven bytes or more and byte 6 is 02, and to cleaning
    otherwise.  The code on a five-byte and on a seven-byte blob of that
    shape: both end in the handler with [(UNKNOWN, "error")], since the
    test of rule 1 comes first and reads the unbound name [byte0].  With
    the name bound to the first byte the two blobs give cleaning and
    paused. *)
Theorem cleaning_and_paused_blobs_decode_to_error :
  let cleaning := [0x00; 0x0a; 0x00; 0x10; 0x05] in
  let paused := [0x00; 0x0a; 0x00; 0x10; 0x05; 0x00; 0x02] in
  decode_dps153_to_state (PBytes cleaning) = Ret (UNKNOWN, "error"%string) /\
  decode_dps153_to_state (PBytes paused) = Ret (UNKNOWN, "error"%string) /\
  decode_rules (getitem cleaning 0) cleaning = Ret (CLEANING, "cleaning"%string) /\
  decode_rules (getitem paused 0) paused = Ret (PAUSED, "paused"%string).
Proof. cbv zeta. repeat split; reflexivity. Qed.

(** C3.  For every argument (bytes, a string, anything else) the decoder
    returns a pair and raises nothing, and the state it returns is
    [UNKNOWN] or [DOCKED]; moreover the rule table itself, run with a first
    byte at hand, returns a pair on a blob of any length, so no access
    goes past the end of the blob. *)
Theorem decode_never_raises :
  (forall v : pyval, exists st sub,
      decode_dps153_to_state v = Ret (st, sub) /\ (st = UNKNOWN \/ st = DOCKED)) /\
  (forall (b0 : Z) (decoded : list Z), exists st sub,
      decode_rules (Ret b0) decoded = Ret (st, sub)).
Proof.
  split.
  - intros v. destruct (decode_unknown v) as [-> | ->]; eauto.
  - apply decode_rules_total.
Qed.

(** C8.  A blob of fewer than three bytes, the empty one included, decodes
    to [(UNKNOWN, "unknown")]. *)
Theorem short_blob_unknown (bs : list Z) :
  (length bs < 3)%nat ->
  decode_dps153_to_state (PBytes bs) = Ret (UNKNOWN, "unknown"%string).
Proof.
  intros H. unfold decode_dps153_to_state. cbn.
  rewrite decode_rules_short; [reflexivity|]. unfold len. lia.
Qed.

Lemma short_blob_unknown_witness :
  decode_dps153_to_state (PBytes [0x06; 0x10]) = Ret (UNKNOWN, "unknown"%string).
Proof. apply (short_blob_unknown [0x06; 0x10]). simpl. lia. Defined.

(** ** Fan speed *)

(** C7.  Each of the four levels is sent as a pair of tokens, and both
    tokens read back as that level; ["middle"] reads as ["Standard"]; the
    reverse table has nine distinct tokens, each bound to one of the four
    levels. *)
Theorem fan_speed_round_trip :
  (forall level, level ∈ fan_speed_list ->
     exists primary secondary,
       HA_TO_EUFY_FAN_SPEED_MAP !! level = Some (primary, secondary) /\
       eufy_to_ha (PStr primary) = Some level /\
       eufy_to_ha (PStr secondary) = Some level) /\
  eufy_to_ha (PStr "middle") = Some "Standard"%string /\
  size EUFY_TO_HA_FAN_SPEED_MAP = 9%nat /\
  (forall token level level',
     eufy_to_ha (PStr token) = Some level ->
     eufy_to_ha (PStr token) = Some level' ->
     level = level' /\ level ∈ fan_speed_list).
Proof.
  split; [|split; [|split]].
  - intros level H. unfold fan_speed_list in H.
    repeat (apply elem_of_cons in H as [-> | H]);
      [| | | | by apply elem_of_nil in H];
      eexists _, _; (split; [vm_compute; reflexivity|]);
      split; vm_compute; reflexivity.
  - vm_compute. reflexivity.
  - vm_compute. reflexivity.
  - intros token level level' H1 H2. split; [congruence|].
    cbn in H1. clear H2.
    assert (Hall : map_Forall (fun _ l => l ∈ fan_speed_list)
                     EUFY_TO_HA_FAN_SPEED_MAP).
    { unfold EUFY_TO_HA_FAN_SPEED_MAP, dict_of. cbn [foldl fst snd].
      repeat (apply map_Forall_insert_2; [unfold fan_speed_list; set_solver|]).
      apply map_Forall_empty. }
    exact (Hall token level H1).
Qed.

Lemma fan_speed_round_trip_witness :
  exists primary secondary,
    HA_TO_EUFY_FAN_SPEED_MAP !! "Turbo"%string = Some (primary, secondary) /\
    eufy_to_ha (PStr primary) = Some "Turbo"%string /\
    eufy_to_ha (PStr secondary) = Some "Turbo"%string.
Proof.
  apply (proj1 fan_speed_round_trip "Turbo"%string).
  unfold fan_speed_list. set_solver.
Defined.

(** ** Running computations *)

Section Running.
Context {A B : Type}.

Lemma bind_run (m : M A) (k : A -> M B) (w : World) :
  (m ≫= k) w =
  match m w with
  | (Ret a, w') => k a w'
  | (Raise e, w') => (Raise e, w')
  end.
Proof. reflexivity. Qed.

Lemma bind_run_ret (m : M A) (k : A -> M B) (w w' : World) (a : A) :
  m w = (Ret a, w') -> (m ≫= k) w = k a w'.
Proof. intros H. rewrite bind_run, H. reflexivity. Qed.

Lemma bind_run_raise (m : M A) (k : A -> M B) (w w' : World) (e : exn) :
  m w = (Raise e, w') -> (m ≫= k) w = (Raise e, w').
Proof. intros H. rewrite bind_run, H. reflexivity. Qed.

Lemma data_get_some (key : string) (dflt : pyval) (w : World)
    (m : gmap string pyval) :
  data w = Some m -> data_get key dflt w = (Ret (default dflt (m !! key)), w).
Proof. intros H. unfold data_get. rewrite H. reflexivity. Qed.
End Running.

(** *** Computations that leave a component of the world alone *)

Section Preserves.
Context {F : Type} (f : World -> F).

Lemma preserves_bind {A B} (m : M A) (k : A -> M B) :
  preserves f m -> (forall a, preserves f (k a)) -> preserves f (m ≫= k).
Proof.
  intros Hm Hk w. rewrite bind_run. specialize (Hm w).
  destruct (m w) as [[a|e] w']; cbn in *; [|exact Hm].
  rewrite Hk. exact Hm.
Qed.

Lemma preserves_ret {A} (a : A) : preserves f (mret a).
Proof. intros w. reflexivity. Qed.

Lemma preserves_ask {A} (g : World -> A) : preserves f (ask g).
Proof. intros w. reflexivity. Qed.

Lemma preserves_raise {A} (e : exn) : preserves f (raise e : M A).
Proof. intros w. reflexivity. Qed.

Lemma preserves_liftR {A} (r : result A) : preserves f (liftR r).
Proof. intros w. reflexivity. Qed.

Lemma preserves_data_get (key : string) (dflt : pyval) :
  preserves f (data_get key dflt).
Proof. intros w. unfold data_get. destruct (data w); reflexivity. Qed.

Lemma preserves_modify (g : World -> World) :
  (forall w, f (g w) = f w) -> preserves f (modify g).
Proof. intros H w. apply H. Qed.

Lemma preserves_try_except {A} (body : M A) (handler : exn -> M A) :
  preserves f body -> (forall e, preserves f (handler e)) ->
  preserves f (try_except body handler).
Proof.
  intros Hb Hh w. unfold try_except. specialize (Hb w).
  destruct (body w) as [[a|e] w']; cbn in *; [exact Hb|].
  rewrite Hh. exact Hb.
Qed.
End Preserves.

Ltac preserves_step :=
  first
    [ apply preserves_bind; [|intros ?]
    | apply preserves_ret
    | apply preserves_ask
    | apply preserves_raise
    | apply preserves_liftR
    | apply preserves_data_get
    | apply preserves_modify; intros ?; reflexivity
    | match goal with
      | |- preserves _ (if ?c then _ else _) => destruct c
      | |- preserves _ (match ?x with _ => _ end) => destruct x
      | |- preserves _ (let (_, _) := ?x in _) => destruct x
      end ].

Ltac solve_preserves := repeat preserves_step.

(** [activity] touches nothing but the three attributes it stores its
    findings in. *)
Lemma activity_trace : preserves trace activity.
Proof. unfold activity. solve_preserves. Qed.

Lemma activity_data : preserves data activity.
Proof. unfold activity. solve_preserves. Qed.

Lemma activity_write_faults : preserves write_faults activity.
Proof. unfold activity. solve_preserves. Qed.

Lemma activity_polls : preserves polls activity.
Proof. unfold activity. solve_preserves. Qed.

Lemma activity_room_mappings : preserves room_mappings activity.
Proof. unfold activity. solve_preserves. Qed.

Lemma activity_last_command : preserves _last_command activity.
Proof. unfold activity. solve_preserves. Qed.

Lemma _is_running_same_world : preserves (fun w => w) _is_running.
Proof. unfold _is_running. solve_preserves. Qed.

(** *** The flag through the device operations *)

Lemma preserves_async_set {F} (f : World -> F) (payload : list (string * pyval)) :
  (forall t w, f (set_trace t w) = f w) ->
  (forall x w, f (set_write_faults x w) = f w) ->
  preserves f (async_set payload).
Proof.
  intros Ht Hf w. unfold async_set.
  destruct (write_faults w) as [|[msg|] rest]; cbn; by rewrite ?Hf, ?Ht.
Qed.

Lemma preserves_sleep {F} (f : World -> F) (ms : Z) :
  (forall t w, f (set_trace t w) = f w) -> preserves f (sleep ms).
Proof. intros Ht w. apply Ht. Qed.

Lemma preserves_async_request_refresh {F} (f : World -> F) :
  (forall t w, f (set_trace t w) = f w) ->
  (forall x w, f (set_polls x w) = f w) ->
  (forall x w, f (set_data x w) = f w) ->
  preserves f async_request_refresh.
Proof.
  intros Ht Hp Hd w. unfold async_request_refresh. cbn.
  destruct (polls w) as [|[d|] rest]; cbn; by rewrite ?Hp, ?Hd, ?Ht.
Qed.

Ltac flag_step :=
  first
    [ apply preserves_bind; [|intros ?]
    | apply preserves_try_except; [|intros ?]
    | apply preserves_async_set; intros; reflexivity
    | apply preserves_sleep; intros; reflexivity
    | apply preserves_async_request_refresh; intros; reflexivity
    | apply preserves_modify; intros ?; reflexivity
    | apply preserves_ret
    | apply preserves_raise
    | match goal with
      | |- preserves _ (if ?c then _ else _) => destruct c
      end ].

Lemma send_command_flag (command : string) :
  preserves _was_paused (_send_command command).
Proof. unfold _send_command. repeat flag_step. Qed.

Lemma _is_running_flag : preserves _was_paused _is_running.
Proof. unfold _is_running. solve_preserves. Qed.

(** ** Status properties *)

Lemma data_truthy_lookup (m : gmap string pyval) (k : string) (v : pyval) :
  m !! k = Some v -> data_truthy (Some m) = true.
Proof.
  intros H. cbn. apply bool_decide_eq_true. intros ->.
  rewrite lookup_empty in H. discriminate.
Qed.

(** C10.  When field "6" of the status mapping holds an integer of 100 or
    more, [activity] reports [ERROR], whatever field "153" holds, and
    [error_code] is that integer in decimal; when field "6" holds anything
    else, or is absent, [error_code] is [None]. *)
Theorem error_field_takes_precedence (w : World) (m : gmap string pyval) :
  data w = Some m ->
  (forall n, m !! "6"%string = Some (PInt n) -> 100 <= n ->
     (activity w).1 = Ret (Some VacuumActivity.ERROR) /\
     error_code w = Some (str_int n)) /\
  ((forall n, m !! "6"%string = Some (PInt n) -> n < 100) ->
     error_code w = None).
Proof.
  intros Hd. split.
  - intros n H6 Hn. split.
    + unfold activity.
      rewrite (bind_run_ret _ _ w w (data w)) by reflexivity.
      rewrite Hd, (data_truthy_lookup m _ _ H6). cbn [negb].
      rewrite (bind_run_ret _ _ w w _ (data_get_some _ _ _ _ Hd)).
      rewrite (bind_run_ret _ _ w w _ (data_get_some _ _ _ _ Hd)).
      rewrite H6. cbn [default].
      rewrite (bind_run_ret _ _ w w true); [reflexivity|].
      unfold liftR, py_and. cbn.
      destruct (Z.leb_spec 100 n); [reflexivity|lia].
    + unfold error_code. rewrite Hd, (data_truthy_lookup m _ _ H6). cbn.
      rewrite H6. cbn. unfold py_and. cbn.
      destruct (Z.leb_spec 100 n); [reflexivity|lia].
  - intros H. unfold error_code. rewrite Hd.
    destruct (data_truthy (Some m)); [|reflexivity]. cbn.
    destruct (m !! "6"%string) as [[| [|] | n | s | bs]|] eqn:E; cbn;
      try reflexivity.
    unfold py_and. cbn. specialize (H n eq_refl).
    destruct (Z.leb_spec 100 n); [lia|reflexivity].
Qed.

Lemma error_field_takes_precedence_witness :
  ((activity error_poll).1 = Ret (Some VacuumActivity.ERROR) /\
   error_code error_poll = Some "150"%string) /\
  error_code quiet_poll = None.
Proof.
  split.
  - apply (proj1 (error_field_takes_precedence error_poll _ eq_refl) 150).
    + vm_compute. reflexivity.
    + lia.
  - apply (proj2 (error_field_takes_precedence quiet_poll _ eq_refl)).
    intros n H. vm_compute in H. injection H as <-. lia.
Defined.

(** *** Postconditions *)

Section Wp.
Context {A : Type} (Q : result A -> World -> Prop) (w : World).

Lemma wp_bind {B} (m : M B) (k : B -> M A) :
  wp m (fun r w' =>
          match r with
          | Ret b => wp (k b) Q w'
          | Raise e => Q (Raise e) w'
          end) w ->
  wp (m ≫= k) Q w.
Proof.
  unfold wp. rewrite bind_run. destruct (m w) as [[b|e] w']; auto.
Qed.

Lemma wp_ret (a : A) : Q (Ret a) w -> wp (mret a) Q w.
Proof. auto. Qed.

Lemma wp_raise (e : exn) : Q (Raise e) w -> wp (raise e) Q w.
Proof. auto. Qed.

Lemma wp_liftR (r : result A) : Q r w -> wp (liftR r) Q w.
Proof. auto. Qed.

Lemma wp_ask (g : World -> A) : Q (Ret (g w)) w -> wp (ask g) Q w.
Proof. auto. Qed.
End Wp.

Lemma wp_modify (Q : result unit -> World -> Prop) (w : World)
    (g : World -> World) :
  Q (Ret tt) (g w) -> wp (modify g) Q w.
Proof. auto. Qed.

Lemma wp_data_get (Q : result pyval -> World -> Prop) (w : World)
    (key : string) (dflt : pyval) :
  (forall v, Q (Ret v) w) -> (forall e, Q (Raise e) w) ->
  wp (data_get key dflt) Q w.
Proof.
  intros Hv He. unfold wp, data_get. destruct (data w); [apply Hv|apply He].
Qed.

Ltac wp_step :=
  first
    [ apply wp_bind
    | apply wp_ret
    | apply wp_raise
    | apply wp_ask
    | apply wp_modify
    | apply wp_data_get; intros ?
    | apply wp_liftR
    | match goal with
      | |- wp (if ?c then _ else _) _ _ => destruct c
      | |- wp (match ?x with _ => _ end) _ _ => destruct x
      | |- match ?r with Ret _ => _ | Raise _ => _ end => destruct r
      | |- wp (let (_, _) := ?x in _) _ _ => destruct x
      end ].


(** ** Device faults during a sequence *)

Section Faults.

Lemma fp_silent {A} (m : M A) : preserves trace m -> fault_propagating m.
Proof.
  intros H w. exists []. rewrite H, app_nil_r.
  split; [reflexivity|]. apply shape_clean. constructor.
Qed.

Lemma fp_bind {A B} (m : M A) (k : A -> M B) :
  fault_propagating m -> (forall a, fault_propagating (k a)) ->
  fault_propagating (m ≫= k).
Proof.
  intros Hm Hk w. rewrite bind_run.
  destruct (Hm w) as (evs1 & Ht1 & Hs1).
  destruct (m w) as [[a|e] w1]; cbn in *.
  - destruct (Hk a w1) as (evs2 & Ht2 & Hs2).
    exists (evs1 ++ evs2). rewrite Ht2, Ht1, app_assoc.
    split; [reflexivity|].
    destruct Hs1 as [Hc1 | pre p msg _ _ [=]].
    destruct Hs2 as [Hc2 | pre p msg -> Hpre Hr].
    + apply shape_clean. apply Forall_app; auto.
    + apply (shape_fault _ _ _ (evs1 ++ pre) p msg); [|apply Forall_app|]; auto.
      by rewrite app_assoc.
  - exists evs1. split; [exact Ht1|].
    destruct Hs1 as [Hc1 | pre p msg -> Hpre [= ->]].
    + by apply shape_clean.
    + by apply (shape_fault _ _ _ pre p msg).
Qed.

Lemma fp_async_set (payload : list (string * pyval)) :
  fault_propagating (async_set payload).
Proof.
  intros w. unfold async_set.
  destruct (write_faults w) as [|[msg|] rest]; cbn.
  - exists [EvWrite payload None]. split; [reflexivity|].
    apply shape_clean. by repeat constructor.
  - exists [EvWrite payload (Some msg)]. split; [reflexivity|].
    by apply (shape_fault _ _ _ [] payload msg); [| constructor |].
  - exists [EvWrite payload None]. split; [reflexivity|].
    apply shape_clean. by repeat constructor.
Qed.

Lemma fp_sleep (ms : Z) : fault_propagating (sleep ms).
Proof.
  intros w. exists [EvSleep ms]. split; [reflexivity|].
  apply shape_clean. by repeat constructor.
Qed.

Lemma fp_async_request_refresh : fault_propagating async_request_refresh.
Proof.
  intros w. exists [EvRefresh]. unfold async_request_refresh. cbn.
  split; [by destruct (polls w) as [|[d|] rest]|].
  apply shape_clean. by repeat constructor.
Qed.

(** A handler that logs and re-raises changes nothing. *)
Lemma try_except_reraise {A} (body : M A) (w : World) :
  try_except body (fun e => raise e) w = body w.
Proof. unfold try_except. by destruct (body w) as [[a|e] w']. Qed.

Lemma fp_try_reraise {A} (body : M A) :
  fault_propagating body ->
  fault_propagating (try_except body (fun e => raise e)).
Proof. intros H w. rewrite try_except_reraise. apply H. Qed.

(** A handler that returns quietly turns a propagated fault into a
    normal return. *)
Lemma fa_try_except (body : M unit) (handler : exn -> M unit) :
  fault_propagating body ->
  (forall e w, trace (handler e w).2 = trace w /\ (handler e w).1 = Ret tt) ->
  fault_absorbing (try_except body handler).
Proof.
  intros Hb Hh w. unfold try_except.
  destruct (Hb w) as (evs & Ht & Hs).
  destruct (body w) as [[[]|e] w1]; cbn in *.
  - exists evs. split; [exact Ht|].
    destruct Hs as [Hc | pre p msg _ _ [=]]. by apply shape_clean.
  - destruct (Hh e w1) as [Htr Hres].
    exists evs. rewrite Htr, Hres. split; [exact Ht|].
    destruct Hs as [Hc | pre p msg -> Hpre Hr].
    + by apply shape_clean.
    + by apply (shape_fault _ _ _ pre p msg).
Qed.

(** In a run of that shape the failed write has nothing after it. *)
Lemma fault_shape_last {A} (on_fault : string -> result A)
    (evs pre post : list event) (r : result A) payload msg :
  fault_shape on_fault evs r ->
  evs = pre ++ EvWrite payload (Some msg) :: post ->
  post = [] /\ no_fault pre /\ r = on_fault msg.
Proof.
  intros [Hc | pre' p' msg' -> Hpre Hr] Hevs.
  - subst evs. apply Forall_app in Hc as [_ Hc].
    apply Forall_cons in Hc as [Hc _]. discriminate.
  - destruct post as [|x post _] using rev_ind.
    + apply app_inj_tail in Hevs as [-> [= -> ->]]. auto.
    + change (pre ++ EvWrite payload (Some msg) :: post ++ [x])
        with (pre ++ (EvWrite payload (Some msg) :: post) ++ [x]) in Hevs.
      rewrite app_assoc in Hevs.
      apply app_inj_tail in Hevs as [-> _].
      apply Forall_app in Hpre as [_ Hpre].
      apply Forall_cons in Hpre as [Hpre _]. discriminate.
Qed.

Lemma new_events_app (w w' : World) (evs : list event) :
  trace w' = trace w ++ evs -> new_events w w' = evs.
Proof. intros H. unfold new_events. rewrite H. apply drop_app_length. Qed.

End Faults.

Lemma _is_running_trace : preserves trace _is_running.
Proof. unfold _is_running. solve_preserves. Qed.

Ltac fp_step :=
  first
    [ apply fp_bind; [|intros ?]
    | apply fp_try_reraise
    | apply fp_async_set
    | apply fp_sleep
    | apply fp_async_request_refresh
    | apply fp_silent;
      first [ apply activity_trace | apply _is_running_trace
            | solve [solve_preserves] ]
    | match goal with
      | |- fault_propagating (if ?c then _ else _) => destruct c
      | |- fault_propagating (match ?x with _ => _ end) => destruct x
      end ].

Lemma fp_send_command (command : string) :
  fault_propagating (_send_command command).
Proof. unfold _send_command. repeat fp_step. Qed.

Lemma fp_async_turn_on : fault_propagating async_turn_on.
Proof.
  unfold async_turn_on.
  repeat first [apply fp_send_command | fp_step].
Qed.

Lemma fp_async_start : fault_propagating async_start.
Proof.
  unfold async_start.
  repeat first [apply fp_send_command | apply fp_async_turn_on | fp_step].
Qed.

Lemma fp_handle_clean_room_command (params : option (gmap string pyval)) :
  fault_propagating (_handle_clean_room_command params).
Proof.
  unfold _handle_clean_room_command.
  repeat first [apply fp_send_command | fp_step].
Qed.

Lemma fp_async_send_command (command : string)
    (params : option (gmap string pyval)) :
  fault_propagating (async_send_command command params).
Proof.
  unfold async_send_command.
  repeat first [apply fp_handle_clean_room_command | fp_step].
Qed.

Lemma fa_async_pause : fault_absorbing async_pause.
Proof.
  unfold async_pause. apply fa_try_except.
  - repeat first [apply fp_send_command | fp_step].
  - intros e w. split; reflexivity.
Qed.

Lemma fa_async_return_to_base : fault_absorbing async_return_to_base.
Proof.
  unfold async_return_to_base. apply fa_try_except.
  - repeat first [apply fp_send_command | fp_step].
  - intros e w. split; reflexivity.
Qed.

Lemma run_intent_fault_run (i : intent) :
  fault_run (on_fault_of i) (run_intent i).
Proof.
  destruct i; unfold run_intent, on_fault_of, propagates.
  - apply fp_async_start.
  - apply fa_async_pause.
  - apply fa_async_pause.
  - apply fa_async_return_to_base.
  - apply fp_async_send_command.
Qed.

(** C6, as stated: a write that fails reaches the caller of every intent.
    Here the first write of a pause fails, and [async_pause] returns
    normally. *)
Lemma pause_swallows_write_fault :
  trace (run_intent Pause failing_device).2 =
    [EvWrite [("152"%string, PStr "AggN")] (Some "timeout"%string)] /\
  (run_intent Pause failing_device).1 = Ret tt /\
  (run_intent Pause failing_device).1 <> Raise (DeviceError "timeout").
Proof. vm_compute. split; [reflexivity|]. split; [reflexivity|discriminate]. Qed.

(** After a failed write the intents that swallow it leave the flag clear:
    pause and stop through their handler, return to dock because it cleared
    the flag before it wrote. *)
Lemma swallowed_fault_clears_flag (i : intent) (w : World)
    (pre post : list event) (payload : list (string * pyval)) (msg : string) :
  propagates i = false ->
  new_events w (run_intent i w).2 = pre ++ EvWrite payload (Some msg) :: post ->
  _was_paused (run_intent i w).2 = false.
Proof.
  assert (Hpause : forall pre post payload msg,
    new_events w (async_pause w).2 = pre ++ EvWrite payload (Some msg) :: post ->
    _was_paused (async_pause w).2 = false).
  { clear. intros pre post payload msg Hev.
    set (body := modify (set_was_paused true);; _send_command S1_PRO_COMMANDS.pause).
    assert (Hfp : fault_propagating body).
    { unfold body. repeat first [apply fp_send_command | fp_step]. }
    change async_pause
      with (try_except body (fun _ => modify (set_was_paused false))) in *.
    unfold try_except in *.
    destruct (Hfp w) as (evs & Ht & Hs).
    destruct (body w) as [[[]|e] w1]; cbn in *; [|reflexivity].
    rewrite (new_events_app _ _ _ Ht) in Hev.
    by destruct (fault_shape_last _ _ _ _ _ _ _ Hs Hev) as (_ & _ & [=]). }
  intros Hp Hev. destruct i; try discriminate; cbn [run_intent] in *.
  - by apply (Hpause pre post payload msg).
  - by apply (Hpause pre post payload msg).
  - clear. unfold async_return_to_base, try_except.
    assert (Hflag : _was_paused
      ((modify (set_was_paused false);;
        _send_command S1_PRO_COMMANDS.return_) w).2 = false).
    { rewrite bind_run.
      change (modify (set_was_paused false) w)
        with (Ret tt, set_was_paused false w).
      cbv iota beta. by rewrite send_command_flag. }
    by destruct ((modify (set_was_paused false);;
                  _send_command S1_PRO_COMMANDS.return_) w) as [[[]|e] w1].
Qed.

(** C6, amended.  In every intent a failed device write is the last thing
    the sequence does: no write, wait or refresh follows it, and the
    events before it stay as they are.  Start and room cleaning then raise
    the device's error unchanged to their caller; pause, stop and return to
    dock log it and return normally, with the flag clear: the handler of
    pause resets it, and return to dock cleared it before it wrote. *)
Theorem write_fault_ends_sequence (i : intent) (w : World)
    (pre post : list event) (payload : list (string * pyval)) (msg : string) :
  new_events w (run_intent i w).2 = pre ++ EvWrite payload (Some msg) :: post ->
  post = [] /\
  no_fault pre /\
  trace (run_intent i w).2 = trace w ++ pre ++ [EvWrite payload (Some msg)] /\
  (run_intent i w).1 =
    (if propagates i then Raise (DeviceError msg) else Ret tt) /\
  (propagates i = false -> _was_paused (run_intent i w).2 = false).
Proof.
  intros Hev.
  pose proof (fun Hp => swallowed_fault_clears_flag i w _ _ _ _ Hp Hev) as Hflag.
  destruct (run_intent_fault_run i w) as (evs & Ht & Hs).
  rewrite (new_events_app _ _ _ Ht) in Hev.
  destruct (fault_shape_last _ _ _ _ _ _ _ Hs Hev) as (-> & Hpre & Hr).
  repeat split; try assumption. by rewrite Ht, Hev.
Qed.

Lemma write_fault_ends_sequence_witness :
  (run_intent (CleanRoom (PStr "closet")) failing_third_write).1 =
    Raise (DeviceError "timeout") /\
  (run_intent Stop failing_pause).1 = Ret tt /\
  _was_paused (run_intent Stop failing_pause).2 = false.
Proof.
  split.
  - refine (proj1 (proj2 (proj2 (proj2
      (write_fault_ends_sequence (CleanRoom (PStr "closet")) failing_third_write
         [EvWrite [("173"%string, PStr "NworCgoK")] None; EvSleep 500;
          EvWrite [("152"%string, PStr "AA==")] None; EvSleep 500]
         [] [("5"%string, PStr "smart")] "timeout" _))))).
    vm_compute. reflexivity.
  - assert (H := write_fault_ends_sequence Stop failing_pause
         [EvWrite [("152"%string, PStr "AggN")] None; EvSleep 500]
         [] [("5"%string, PStr "pause")] "timeout").
    destruct H as (_ & _ & _ & Hr & Hf); [vm_compute; reflexivity|].
    split; [exact Hr|]. apply Hf. reflexivity.
Defined.

(** ** Start: resume or fresh start *)

(** The resume branch of [async_start]: one write; the flag is cleared
    when the write goes through. *)
Lemma resume_run (w : World) :
  let run := (_send_command S1_PRO_COMMANDS.cleaning;;
              modify (set_was_paused false)) w in
  exists fault,
    writes (new_events w run.2) = [resume_write fault] /\
    match fault with
    | None => run.1 = Ret tt /\ _was_paused run.2 = false
    | Some msg =>
        run.1 = Raise (DeviceError msg) /\
        new_events w run.2 = [resume_write (Some msg)] /\
        _was_paused run.2 = _was_paused w
    end.
Proof.
  cbv zeta. unfold _send_command.
  rewrite bind_run, try_except_reraise.
  unfold new_events, resume_write.
  destruct (write_faults w) as [|[msg|] rest] eqn:E.
  - exists None.
    unfold mbind, M_bind, modify, async_set, sleep, emit, modify,
      async_request_refresh. cbn. rewrite E. cbn.
    destruct (polls w) as [|[d|] ps]; cbn;
      rewrite <- !app_assoc, drop_app_length; cbn; auto.
  - exists (Some msg).
    unfold mbind, M_bind, modify, async_set. cbn. rewrite E. cbn.
    rewrite drop_app_length. cbn. auto.
  - exists None.
    unfold mbind, M_bind, modify, async_set, sleep, emit, modify,
      async_request_refresh. cbn. rewrite E. cbn.
    destruct (polls w) as [|[d|] ps]; cbn;
      rewrite <- !app_assoc, drop_app_length; cbn; auto.
Qed.

(** The second look at field "153" in [async_start] returns a boolean and
    changes nothing. *)
Lemma is_paused_by_dps153_run (current_dps153 : pyval) (w : World) :
  exists b,
    (if py_truthy current_dps153 then
       '(detected_state, _) ← liftR (decode_dps153_to_state current_dps153);
       mret (bool_decide (detected_state = PAUSED))
     else mret false) w = (Ret b, w).
Proof.
  destruct (py_truthy current_dps153); [|by eexists].
  rewrite bind_run. unfold liftR.
  destruct (decode_unknown current_dps153) as [-> | ->]; by eexists.
Qed.




(** ** Room selection *)

Section Rooms.

Lemma append_assoc (a b c : string) : (a +:+ b) +:+ c = a +:+ b +:+ c.
Proof.
  induction a as [|x a IH]; [reflexivity|].
  change (String x ((a +:+ b) +:+ c) = String x (a +:+ b +:+ c)).
  by rewrite IH.
Qed.

Lemma append_nil_r (a : string) : a +:+ EmptyString = a.
Proof.
  induction a as [|x a IH]; [reflexivity|].
  change (String x (a +:+ EmptyString) = String x a). by rewrite IH.
Qed.

Lemma occurs_in_refl (s : string) : occurs_in s s.
Proof. exists EmptyString, EmptyString. cbn. by rewrite append_nil_r. Qed.

Lemma occurs_in_append (sub s a b : string) :
  occurs_in sub s -> occurs_in sub (a +:+ s +:+ b).
Proof.
  intros (pre & post & ->). exists (a +:+ pre), (post +:+ b).
  by rewrite !append_assoc.
Qed.

Lemma occurs_in_middle (sub s a b c d e f g : string) :
  occurs_in sub s ->
  occurs_in sub (a +:+ b +:+ c +:+ d +:+ s +:+ e +:+ f +:+ g).
Proof.
  intros H.
  rewrite <- (append_assoc c d), <- (append_assoc b), <- (append_assoc a).
  by apply occurs_in_append.
Qed.

Lemma occurs_in_concat (sep k : string) (ks : list string) :
  k ∈ ks -> occurs_in k (String.concat sep ks).
Proof.
  induction ks as [|x ks IH]; intros Hk; [by apply elem_of_nil in Hk|].
  apply elem_of_cons in Hk as [<- | Hk].
  - destruct ks as [|y ks]; cbn; [apply occurs_in_refl|].
    exists EmptyString, (sep +:+ String.concat sep (y :: ks)). reflexivity.
  - destruct ks as [|y ks]; [by apply elem_of_nil in Hk|].
    change (String.concat sep (x :: y :: ks))
      with (x +:+ sep +:+ String.concat sep (y :: ks)).
    destruct (IH Hk) as (pre & post & ->).
    exists (x +:+ sep +:+ pre), post. by rewrite !append_assoc.
Qed.

Lemma occurs_in_empty (k : string) : occurs_in k EmptyString -> k = EmptyString.
Proof.
  intros (pre & post & H). destruct pre; [|discriminate].
  destruct k; [reflexivity|discriminate].
Qed.

Lemma room_lookup_None (key : string) (table : list (string * pyval)) :
  room_lookup key table = None <-> key ∉ map fst table.
Proof.
  induction table as [|[k v] table IH]; cbn.
  - split; [intros _; apply not_elem_of_nil|done].
  - rewrite not_elem_of_cons. destruct (String.eqb_spec key k) as [->|Hne].
    + split; [done|]. by intros [? _].
    + rewrite IH. tauto.
Qed.

Lemma room_lookup_Some (key : string) (table : list (string * pyval))
    (payload : pyval) :
  room_lookup key table = Some payload -> (key, payload) ∈ table.
Proof.
  induction table as [|[k v] table IH]; cbn; [done|].
  destruct (String.eqb_spec key k) as [->|Hne].
  - intros [= ->]. apply list_elem_of_here.
  - intros H. apply list_elem_of_further. auto.
Qed.

(** Every configured room id shows up in the not-found message. *)
Lemma room_not_found_message_lists (room_id : pyval)
    (table : list (string * pyval)) (k : string) :
  k ∈ map fst table -> occurs_in k (room_not_found_message room_id table).
Proof.
  intros Hk. unfold room_not_found_message.
  apply (occurs_in_concat ", " k) in Hk.
  change (occurs_in k (available_rooms table)) in Hk.
  cbv zeta.
  destruct (String.eqb_spec (available_rooms table) EmptyString) as [E|_].
  - rewrite E in Hk. apply occurs_in_empty in Hk as ->.
    eexists EmptyString, _. reflexivity.
  - by apply occurs_in_middle.
Qed.

End Rooms.

Lemma clean_room_run (room_id : pyval) (w : World) :
  run_intent (CleanRoom room_id) w =
  match default [] (room_mappings w) with
  | [] => (Raise (ValueError no_room_mappings_message), w)
  | table =>
      match room_lookup (py_str room_id) table with
      | None => (Raise (ValueError (room_not_found_message room_id table)), w)
      | Some dps173_value => room_sequence dps173_value w
      end
  end.
Proof.
  unfold run_intent, async_send_command, _handle_clean_room_command.
  rewrite String.eqb_refl. cbn [mbind option_bind].
  rewrite lookup_singleton_eq, bind_run. unfold ask. cbn [fst snd].
  destruct (default [] (room_mappings w)) as [|kv table]; [reflexivity|].
  destruct (room_lookup (py_str room_id) (kv :: table)); reflexivity.
Qed.

(** The room sequence opens with the write of the selection payload. *)
Lemma room_sequence_first_write (dps173_value : pyval) (w : World) :
  exists fault rest,
    new_events w (room_sequence dps173_value w).2 =
      EvWrite [("173"%string, dps173_value)] fault :: rest.
Proof.
  unfold room_sequence. rewrite try_except_reraise, bind_run.
  assert (Hk : fault_propagating
    (sleep 500;; modify (set_was_paused false);;
     _send_command S1_PRO_COMMANDS.start;; sleep 2000;;
     _send_command S1_PRO_COMMANDS.cleaning;; async_request_refresh;;
     _ ← _is_running; mret tt)).
  { repeat first [apply fp_send_command | fp_step]. }
  unfold async_set.
  destruct (write_faults w) as [|[msg|] faults].
  - destruct (Hk (set_trace (trace w ++ [EvWrite [("173"%string, dps173_value)] None]) w))
      as (evs & Ht & _).
    exists None, evs. apply new_events_app. rewrite Ht. cbn.
    by rewrite <- app_assoc.
  - exists (Some msg), []. by apply new_events_app.
  - destruct (Hk (set_write_faults faults
                    (set_trace (trace w ++ [EvWrite [("173"%string, dps173_value)] None]) w)))
      as (evs & Ht & _).
    exists None, evs. apply new_events_app. rewrite Ht. cbn.
    by rewrite <- app_assoc.
Qed.




(** * Further properties *)

(** ** The docked substatus *)

Section DockedSubstatus.

Lemma getitem_Some (decoded : list Z) (i : nat) (b : Z) :
  nth_error decoded i = Some b -> getitem decoded i = Ret b.
Proof. intros H. unfold getitem. by rewrite H. Qed.

Lemma nth_error_Some_len (decoded : list Z) (i : nat) (b : Z) :
  nth_error decoded i = Some b -> Z.of_nat i < len decoded.
Proof.
  intros H. unfold len.
  assert (i < length decoded)%nat; [|lia].
  apply nth_error_Some. congruence.
Qed.

Lemma nth_error_None_len (decoded : list Z) (i : nat) :
  nth_error decoded i = None -> len decoded <= Z.of_nat i.
Proof. intros H. unfold len. apply nth_error_None in H. lia. Qed.

End DockedSubstatus.

(** X2.  Charging family: on a blob whose byte 1 is 0x10 and byte 2 is 0x03,
    the docked substatus is "fully_charged" when byte 4 is there and is
    0x02, and "charging" in every other case, a blob too short to have a
    byte 4 included. *)
Theorem docked_substatus_charging (decoded : list Z) :
  nth_error decoded 1 = Some 0x10 ->
  nth_error decoded 2 = Some 0x03 ->
  _get_docked_substatus decoded =
    Ret (match nth_error decoded 4 with
         | Some 0x02 => "fully_charged"%string
         | _ => "charging"%string
         end).
Proof.
  intros H1 H2. unfold _get_docked_substatus.
  pose proof (nth_error_Some_len _ _ _ H2) as Hlen.
  destruct (Z.ltb_spec (len decoded) 3); [lia|].
  rewrite (getitem_Some _ _ _ H1), (getitem_Some _ _ _ H2).
  destruct (nth_error decoded 4) as [b4|] eqn:E4; cbn.
  - pose proof (nth_error_Some_len _ _ _ E4).
    destruct (Z.leb_spec 5 (len decoded)); [|lia].
    rewrite (getitem_Some _ _ _ E4). cbn.
    destruct (Z.eqb_spec b4 0) as [->|]; [reflexivity|].
    destruct (Z.eqb_spec b4 2) as [->|]; [reflexivity|].
    destruct b4 as [|[[]|[]|]|]; try reflexivity; congruence.
  - pose proof (nth_error_None_len _ _ E4).
    destruct (Z.leb_spec 5 (len decoded)); [lia|reflexivity].
Qed.

Lemma docked_substatus_charging_witness :
  _get_docked_substatus [0x00; 0x10; 0x03; 0x1a; 0x02] = Ret "fully_charged"%string /\
  _get_docked_substatus [0x00; 0x10; 0x03] = Ret "charging"%string.
Proof.
  split.
  - apply (docked_substatus_charging [0x00; 0x10; 0x03; 0x1a; 0x02]); reflexivity.
  - apply (docked_substatus_charging [0x00; 0x10; 0x03]); reflexivity.
Defined.

(** X3.  Mop family: on a blob whose byte 1 is 0x10 and byte 2 is 0x09,
    byte 3 selects the substatus: 0xfa dust collecting, 0x1a mop drying,
    0x3a mop washing; any other byte 3, or none, gives "mop_operations". *)
Theorem docked_substatus_mop (decoded : list Z) :
  nth_error decoded 1 = Some 0x10 ->
  nth_error decoded 2 = Some 0x09 ->
  _get_docked_substatus decoded =
    Ret (match nth_error decoded 3 with
         | Some 0xfa => "dust_collecting"%string
         | Some 0x1a => "mop_drying"%string
         | Some 0x3a => "mop_washing"%string
         | _ => "mop_operations"%string
         end).
Proof.
  intros H1 H2. unfold _get_docked_substatus.
  pose proof (nth_error_Some_len _ _ _ H2) as Hlen.
  destruct (Z.ltb_spec (len decoded) 3); [lia|].
  rewrite (getitem_Some _ _ _ H1), (getitem_Some _ _ _ H2).
  destruct (nth_error decoded 3) as [b3|] eqn:E3; cbn.
  - pose proof (nth_error_Some_len _ _ _ E3).
    destruct (Z.leb_spec 4 (len decoded)); [|lia].
    rewrite (getitem_Some _ _ _ E3). cbn.
    destruct (Z.eqb_spec b3 250) as [->|]; [reflexivity|].
    destruct (Z.eqb_spec b3 26) as [->|]; [reflexivity|].
    destruct (Z.eqb_spec b3 58) as [->|]; [reflexivity|].
    destruct b3 as [|p|]; try reflexivity.
    repeat (destruct p as [p|p|]; try reflexivity); congruence.
  - pose proof (nth_error_None_len _ _ E3).
    destruct (Z.leb_spec 4 (len decoded)); [lia|reflexivity].
Qed.

Lemma docked_substatus_mop_witness :
  _get_docked_substatus [0x00; 0x10; 0x09; 0x1a] = Ret "mop_drying"%string /\
  _get_docked_substatus [0x00; 0x10; 0x09] = Ret "mop_operations"%string.
Proof.
  split.
  - apply (docked_substatus_mop [0x00; 0x10; 0x09; 0x1a]); reflexivity.
  - apply (docked_substatus_mop [0x00; 0x10; 0x09]); reflexivity.
Defined.

(** X4.  Water family: on a blob that reads 0a 00 10 09 from byte 1 on, the
    docked substatus is "mop_washing_pre" when byte 11 is there and is
    0x3a, and "water_refilling" otherwise. *)
Theorem docked_substatus_water (decoded : list Z) :
  nth_error decoded 1 = Some 0x0a ->
  nth_error decoded 2 = Some 0x00 ->
  nth_error decoded 3 = Some 0x10 ->
  nth_error decoded 4 = Some 0x09 ->
  _get_docked_substatus decoded =
    Ret (match nth_error decoded 11 with
         | Some 0x3a => "mop_washing_pre"%string
         | _ => "water_refilling"%string
         end).
Proof.
  intros H1 H2 H3 H4. unfold _get_docked_substatus.
  pose proof (nth_error_Some_len _ _ _ H4) as Hlen.
  destruct (Z.ltb_spec (len decoded) 3); [lia|].
  rewrite (getitem_Some _ _ _ H1), (getitem_Some _ _ _ H2).
  unfold py_and, len_ge, byte_is.
  rewrite (getitem_Some _ _ _ H3), (getitem_Some _ _ _ H4).
  destruct (nth_error decoded 11) as [b11|] eqn:E11; cbn.
  - pose proof (nth_error_Some_len _ _ _ E11).
    destruct (Z.leb_spec 5 (len decoded)); [|lia]. cbn.
    destruct (Z.leb_spec 12 (len decoded)); [|lia].
    rewrite (getitem_Some _ _ _ E11). cbn.
    destruct (Z.eqb_spec b11 58) as [->|]; [reflexivity|].
    destruct b11 as [|p|]; try reflexivity.
    repeat (destruct p as [p|p|]; try reflexivity); congruence.
  - pose proof (nth_error_None_len _ _ E11).
    destruct (Z.leb_spec 5 (len decoded)); [|lia]. cbn.
    destruct (Z.leb_spec 12 (len decoded)); [lia|reflexivity].
Qed.

Lemma docked_substatus_water_witness :
  _get_docked_substatus [0x00; 0x0a; 0x00; 0x10; 0x09] = Ret "water_refilling"%string /\
  _get_docked_substatus
    [0x00; 0x0a; 0x00; 0x10; 0x09; 0; 0; 0; 0; 0; 0; 0x3a] = Ret "mop_washing_pre"%string.
Proof.
  split.
  - apply (docked_substatus_water [0x00; 0x0a; 0x00; 0x10; 0x09]); reflexivity.
  - apply (docked_substatus_water
             [0x00; 0x0a; 0x00; 0x10; 0x09; 0; 0; 0; 0; 0; 0; 0x3a]); reflexivity.
Defined.

(** X5.  Outside the three families the docked substatus is "idle": when
    byte 1 is neither 0x10 nor 0x0a, and when byte 1 is 0x10 but byte 2 is
    neither 0x03 nor 0x09.  A blob of fewer than three bytes gives
    "unknown". *)
Theorem docked_substatus_idle (decoded : list Z) :
  ((length decoded < 3)%nat ->
     _get_docked_substatus decoded = Ret "unknown"%string) /\
  (forall b1 b2,
     nth_error decoded 1 = Some b1 ->
     nth_error decoded 2 = Some b2 ->
     b1 <> 0x0a ->
     b1 <> 0x10 \/ (b2 <> 0x03 /\ b2 <> 0x09) ->
     _get_docked_substatus decoded = Ret "idle"%string).
Proof.
  split.
  - intros Hlt. unfold _get_docked_substatus.
    destruct (Z.ltb_spec (len decoded) 3) as [|Hge]; [reflexivity|].
    unfold len in Hge. lia.
  - intros b1 b2 H1 H2 Ha Hb. unfold _get_docked_substatus.
    pose proof (nth_error_Some_len _ _ _ H2) as Hlen.
    destruct (Z.ltb_spec (len decoded) 3); [lia|].
    rewrite (getitem_Some _ _ _ H1), (getitem_Some _ _ _ H2). cbn.
    destruct (Z.eqb_spec b1 10); [contradiction|]. cbn.
    destruct (Z.eqb_spec b1 16); [|reflexivity].
    destruct (Z.eqb_spec b2 3); [tauto|].
    destruct (Z.eqb_spec b2 9); [tauto|reflexivity].
Qed.

Lemma docked_substatus_idle_witness :
  _get_docked_substatus [0x00; 0x10] = Ret "unknown"%string /\
  _get_docked_substatus [0x00; 0x10; 0x07; 0x00] = Ret "idle"%string.
Proof.
  split.
  - apply (proj1 (docked_substatus_idle [0x00; 0x10])). simpl. lia.
  - apply (proj2 (docked_substatus_idle [0x00; 0x10; 0x07; 0x00]) 0x10 0x07);
      [reflexivity | reflexivity | lia | right; lia].
Defined.

Ltac described :=
  eexists; split; [reflexivity | vm_compute; eexists; reflexivity].

Lemma _get_docked_substatus_range (decoded : list Z) :
  exists s, _get_docked_substatus decoded = Ret s /\
            is_Some (SUBSTATUS_DESCRIPTIONS !! s).
Proof.
  unfold _get_docked_substatus.
  destruct (Z.ltb_spec (len decoded) 3); [described|].
  destruct (getitem_lt decoded 1) as [b1 ->]; [lia|].
  destruct (getitem_lt decoded 2) as [b2 ->]; [lia|]. cbn.
  assert (Hrest : exists s,
    (if (b1 =? 10) && (b2 =? 0)
     then c ← len_ge decoded 5 &&& byte_is decoded 3 16
                &&& byte_is decoded 4 9;
          if c : bool
          then p ← len_ge decoded 12 &&& byte_is decoded 11 58;
               if p : bool then Ret "mop_washing_pre"%string
               else Ret "water_refilling"%string
          else Ret "idle"%string
     else Ret "idle"%string) = Ret s /\ is_Some (SUBSTATUS_DESCRIPTIONS !! s)).
  { destruct ((b1 =? 10) && (b2 =? 0)); [|described].
    destruct (guarded_byte2 decoded 5 3 4 16 9) as [c ->]; [lia|lia|].
    cbn. destruct c; [|described].
    destruct (guarded_byte decoded 12 11 58) as [p ->]; [lia|].
    cbn. destruct p; described. }
  destruct (b1 =? 16); [|exact Hrest].
  destruct (b2 =? 3).
  - destruct (Z.leb_spec 5 (len decoded)); [|described].
    destruct (getitem_lt decoded 4) as [b4 ->]; [lia|]. cbn.
    destruct (b4 =? 0); [described|]. destruct (b4 =? 2); described.
  - destruct (b2 =? 9); [|exact Hrest].
    destruct (Z.leb_spec 4 (len decoded)); [|described].
    destruct (getitem_lt decoded 3) as [b3 ->]; [lia|]. cbn.
    destruct (b3 =? 250); [described|]. destruct (b3 =? 26); [described|].
    destruct (b3 =? 58); described.
Qed.

(** X6.  Every substatus the two decoders hand out has an entry in
    [SUBSTATUS_DESCRIPTIONS]: the docked substatus of any blob, and the
    substatus [decode_dps153_to_state] returns for any argument. *)
Theorem substatus_described :
  (forall decoded : list Z, exists s,
     _get_docked_substatus decoded = Ret s /\
     is_Some (SUBSTATUS_DESCRIPTIONS !! s)) /\
  (forall v : pyval, exists st s,
     decode_dps153_to_state v = Ret (st, s) /\
     is_Some (SUBSTATUS_DESCRIPTIONS !! s)).
Proof.
  split; [apply _get_docked_substatus_range|].
  intros v. destruct (decode_unknown v) as [-> | ->];
    eexists _, _; (split; [reflexivity | vm_compute; eexists; reflexivity]).
Qed.

(** X1.  The decoder reports no state but [UNKNOWN].  Bytes, given raw or
    as base64 text, give substatus "unknown" when there are fewer than
    three and "error" otherwise; text that is no base64 and values that
    are neither text nor bytes give "error". *)
Theorem decode_outcomes :
  (forall bs : list Z,
     decode_dps153_to_state (PBytes bs) =
       Ret (UNKNOWN, if len bs <? 3 then "unknown"%string else "error"%string)) /\
  (forall s : string,
     decode_dps153_to_state (PStr s) =
       match b64decode s with
       | Ret bs => Ret (UNKNOWN, if len bs <? 3 then "unknown"%string else "error"%string)
       | Raise _ => Ret (UNKNOWN, "error"%string)
       end) /\
  decode_dps153_to_state PNone = Ret (UNKNOWN, "error"%string) /\
  (forall n, decode_dps153_to_state (PInt n) = Ret (UNKNOWN, "error"%string)) /\
  (forall b, decode_dps153_to_state (PBool b) = Ret (UNKNOWN, "error"%string)).
Proof.
  assert (Hbs : forall bs,
    Res.try_except (decode_rules byte0 bs) (fun _ => Ret (UNKNOWN, "error"%string))
    = Ret (UNKNOWN, if len bs <? 3 then "unknown"%string else "error"%string)).
  { intros bs. destruct (Z.ltb_spec (len bs) 3).
    - by rewrite decode_rules_short.
    - by rewrite decode_rules_unbound. }
  repeat split; try reflexivity.
  - intros bs. apply Hbs.
  - intros s. unfold decode_dps153_to_state. cbn.
    destruct (b64decode s) as [bs|e]; [apply Hbs|reflexivity].
Qed.

(** ** Status properties, continued *)

Section Status.

Lemma is_error_test (m : gmap string pyval) :
  Ret (isinstance_int (default (PInt 0) (m !! "6"%string)))
    &&& py_ge (default (PInt 0) (m !! "6"%string)) 100
  = Ret (field6_error m).
Proof.
  unfold field6_error, py_and, isinstance_int, py_ge.
  destruct (m !! "6"%string) as [v|]; cbn; [|reflexivity].
  destruct (as_int v); reflexivity.
Qed.

Lemma error_code_field6 (w : World) (m : gmap string pyval) :
  data w = Some m ->
  error_code w =
    if data_truthy (Some m) && field6_error m
    then Some (py_str (default PNone (m !! "6"%string)))
    else None.
Proof.
  intros Hd. unfold error_code, field6_error, py_and, isinstance_int, py_ge.
  rewrite Hd. destruct (data_truthy (Some m)); [|reflexivity]. cbn.
  destruct (m !! "6"%string) as [v|]; cbn; [|reflexivity].
  destruct (as_int v) as [n|]; cbn; [|reflexivity].
  by destruct (100 <=? n).
Qed.

Lemma field6_error_truthy (m : gmap string pyval) :
  field6_error m = true -> data_truthy (Some m) = true.
Proof.
  unfold field6_error. destruct (m !! "6"%string) as [v|] eqn:E; [|done].
  intros _. by apply (data_truthy_lookup m "6" v).
Qed.

(** [error_code] is absent exactly when field "6" is no error value. *)
Lemma error_code_None (w : World) (m : gmap string pyval) :
  data w = Some m -> (error_code w = None <-> field6_error m = false).
Proof.
  intros Hd. rewrite (error_code_field6 w m Hd).
  destruct (field6_error m) eqn:E.
  - rewrite (field6_error_truthy m E). cbn. split; discriminate.
  - rewrite andb_false_r. done.
Qed.

Lemma wp_data_get_some (Q : result pyval -> World -> Prop) (w : World)
    (m : gmap string pyval) (key : string) (dflt : pyval) :
  data w = Some m ->
  Q (Ret (default dflt (m !! key))) w ->
  wp (data_get key dflt) Q w.
Proof. intros Hd HQ. unfold wp. by rewrite (data_get_some _ _ _ _ Hd). Qed.

End Status.

(** One step through [activity] and its callers for a world whose mapping
    is [m]: the error test and the decoder are replaced by what they
    return, conditions are split with their equations kept. *)
Ltac status_step m Hd :=
  first
    [ rewrite is_error_test
    | match goal with
      | |- context [decode_dps153_to_state ?v] =>
          destruct (decode_unknown v) as [-> | ->]
      end
    | apply wp_bind
    | apply wp_ret
    | apply wp_raise
    | apply wp_ask
    | apply wp_modify
    | apply (wp_data_get_some _ _ m); [exact Hd|]
    | apply wp_liftR
    | match goal with
      | |- wp (if ?c then _ else _) _ _ => destruct c eqn:?
      | |- wp (match ?x with _ => _ end) _ _ => destruct x eqn:?
      | |- match ?r with Ret _ => _ | Raise _ => _ end => destruct r eqn:?
      | |- wp (let (_, _) := ?x in _) _ _ => destruct x eqn:?
      end ].

(** X7.  A status blob hides the device's state.  With a non-empty value in
    field "153" and no error value in field "6", [activity] reports [IDLE]
    whatever the blob holds, records [UNKNOWN] as the detected state with
    substatus "unknown" or "error", and leaves the flag as it was; and
    [_is_running] answers no. *)
Theorem activity_idle_on_status_blob (w : World) (m : gmap string pyval)
    (v : pyval) :
  data w = Some m ->
  m !! "153"%string = Some v ->
  py_truthy v = true ->
  error_code w = None ->
  (activity w).1 = Ret (Some VacuumActivity.IDLE) /\
  _was_paused (activity w).2 = _was_paused w /\
  _detected_state (activity w).2 = Some UNKNOWN /\
  (_substatus (activity w).2 = Some "unknown"%string \/
   _substatus (activity w).2 = Some "error"%string) /\
  (_is_running w).1 = Ret false.
Proof.
  intros Hd H153 Ht Herr.
  apply (error_code_None w m Hd) in Herr.
  pose proof (data_truthy_lookup m _ _ H153) as Htr.
  assert (Hact : wp activity (fun r w' =>
      r = Ret (Some VacuumActivity.IDLE) /\
      _was_paused w' = _was_paused w /\
      _detected_state w' = Some UNKNOWN /\
      (_substatus w' = Some "unknown"%string \/
       _substatus w' = Some "error"%string)) w).
  { unfold activity.
    repeat (status_step m Hd;
            rewrite ?Hd, ?Htr, ?H153, ?Herr, ?Ht in *;
            cbn [default from_option id negb] in *;
            try discriminate); cbn; auto. }
  assert (Hrun : wp _is_running (fun r _ => r = Ret false) w).
  { unfold _is_running.
    repeat (status_step m Hd;
            rewrite ?Hd, ?Htr, ?H153, ?Herr, ?Ht in *;
            cbn [default from_option id negb] in *;
            try discriminate); cbn; auto. }
  unfold wp in Hact, Hrun. tauto.
Qed.

Lemma activity_idle_on_status_blob_witness :
  (activity blob_poll).1 = Ret (Some VacuumActivity.IDLE) /\
  _was_paused (activity blob_poll).2 = true /\
  (_is_running blob_poll).1 = Ret false.
Proof.
  destruct (activity_idle_on_status_blob blob_poll _ (PStr "BhADGgIIAQ==") eq_refl)
    as (H1 & H2 & _ & _ & H5);
    [vm_compute; reflexivity | reflexivity | vm_compute; reflexivity |].
  auto.
Defined.

Ltac status_run m Hd :=
  repeat (status_step m Hd;
          repeat match goal with
                 | H : _ = _ |- _ => rewrite H in *
                 end;
          cbn [default from_option id negb] in *;
          try discriminate).

(** [status_step] without the shortcut through what the decoder returns:
    the decoder's result is split into its cases. *)
Ltac flag_status_step m Hd :=
  first
    [ rewrite is_error_test
    | apply wp_bind
    | apply wp_ret
    | apply wp_raise
    | apply wp_ask
    | apply wp_modify
    | apply (wp_data_get_some _ _ m); [exact Hd|]
    | apply wp_liftR
    | match goal with
      | |- wp (if ?c then _ else _) _ _ => destruct c eqn:?
      | |- wp (match ?x with _ => _ end) _ _ => destruct x eqn:?
      | |- match ?r with Ret _ => _ | Raise _ => _ end => destruct r eqn:?
      | |- wp (let (_, _) := ?x in _) _ _ => destruct x eqn:?
      end ].



(** X9.  Without a status blob the legacy command field decides.  When
    field "153" is absent or empty and field "6" holds no error value, the
    token in field "152" gives the activity and sets the flag: the cleaning
    token means cleaning and the return token returning, both with the flag
    cleared; the pause token means paused, with the flag set. *)
Theorem activity_legacy_tokens (w : World) (m : gmap string pyval)
    (token : string) :
  data w = Some m ->
  py_truthy (default (PStr EmptyString) (m !! "153"%string)) = false ->
  error_code w = None ->
  m !! "152"%string = Some (PStr token) ->
  (token = S1_PRO_COMMANDS.cleaning ->
     (activity w).1 = Ret (Some VacuumActivity.CLEANING) /\
     _was_paused (activity w).2 = false) /\
  (token = S1_PRO_COMMANDS.pause ->
     (activity w).1 = Ret (Some VacuumActivity.PAUSED) /\
     _was_paused (activity w).2 = true) /\
  (token = S1_PRO_COMMANDS.return_ ->
     (activity w).1 = Ret (Some VacuumActivity.RETURNING) /\
     _was_paused (activity w).2 = false).
Proof.
  intros Hd H153 Herr H152.
  apply (error_code_None w m Hd) in Herr.
  pose proof (data_truthy_lookup m _ _ H152) as Htr.
  split; [|split]; intros ->; split.
  all: match goal with
       | |- ?r = ?x => change (wp activity (fun r' _ => r' = x) w)
       | |- _was_paused _ = ?b =>
           change (wp activity (fun _ w' => _was_paused w' = b) w)
       end.
  all: unfold activity; status_run m Hd; cbn; auto.
Qed.

Lemma activity_legacy_tokens_witness :
  (activity returning_poll).1 = Ret (Some VacuumActivity.RETURNING) /\
  _was_paused (activity returning_poll).2 = false.
Proof.
  refine (proj2 (proj2 (activity_legacy_tokens returning_poll _ "AggG"
                          eq_refl _ _ _)) eq_refl);
    vm_compute; reflexivity.
Defined.

(** X10.  The last fallback of [activity] looks at the battery.  When the
    mapping has no status blob and no command token and fields "6" and "7"
    are 0 or absent, an integer battery level in field "8" gives [DOCKED]
    from 95 up and [IDLE] below, and a missing one gives [IDLE]; a battery
    level that arrives as text makes [activity] raise [TypeError].  The
    flag stays as it was. *)
Theorem activity_battery_fallback (w : World) (m : gmap string pyval) :
  data w = Some m ->
  m ≠ ∅ ->
  m !! "153"%string = None ->
  m !! "152"%string = None ->
  default (PInt 0) (m !! "6"%string) = PInt 0 ->
  default (PInt 0) (m !! "7"%string) = PInt 0 ->
  _was_paused (activity w).2 = _was_paused w /\
  (forall n, m !! "8"%string = Some (PInt n) ->
     (activity w).1 =
       Ret (Some (if 95 <=? n then VacuumActivity.DOCKED else VacuumActivity.IDLE))) /\
  (m !! "8"%string = None -> (activity w).1 = Ret (Some VacuumActivity.IDLE)) /\
  (forall s, m !! "8"%string = Some (PStr s) ->
     (activity w).1 =
       Raise (TypeError "'>=' not supported between instances of 'str' and 'int'")).
Proof.
  intros Hd Hne H153 H152 H6 H7.
  assert (Htr : data_truthy (Some m) = true) by by apply bool_decide_eq_true.
  assert (Herr : field6_error m = false).
  { unfold field6_error. destruct (m !! "6"%string) as [v6|]; [|done].
    cbn in H6. by subst v6. }
  split; [|split; [|split]].
  - change (wp activity (fun _ w' => _was_paused w' = _was_paused w) w).
    unfold activity. status_run m Hd; cbn in *; congruence.
  - intros n H8.
    change (wp activity (fun r _ => r =
      Ret (Some (if 95 <=? n then VacuumActivity.DOCKED else VacuumActivity.IDLE))) w).
    unfold activity. status_run m Hd; cbn in *; try congruence.
    all: unfold py_and in *; cbn in *; simplify_eq; try reflexivity.
  - intros H8.
    change (wp activity (fun r _ => r = Ret (Some VacuumActivity.IDLE)) w).
    unfold activity. status_run m Hd; cbn in *; try congruence.
    all: unfold py_and in *; cbn in *; simplify_eq; try reflexivity.
  - intros s H8.
    change (wp activity (fun r _ => r =
      Raise (TypeError "'>=' not supported between instances of 'str' and 'int'")) w).
    unfold activity. status_run m Hd; cbn in *; try congruence.
    all: unfold py_and in *; cbn in *; simplify_eq; try reflexivity.
Qed.

Lemma lookup_nonempty (m : gmap string pyval) (k : string) (v : pyval) :
  m !! k = Some v -> m ≠ ∅.
Proof. intros H ->. rewrite lookup_empty in H. discriminate. Qed.

Lemma activity_battery_fallback_witness :
  (activity (battery_only (PInt 97))).1 = Ret (Some VacuumActivity.DOCKED) /\
  (activity (battery_only (PStr "97"))).1 =
    Raise (TypeError "'>=' not supported between instances of 'str' and 'int'").
Proof.
  split.
  - refine (proj1 (proj2 (activity_battery_fallback (battery_only (PInt 97)) _
                            eq_refl _ _ _ _ _)) 97 _);
      try (vm_compute; reflexivity).
    apply (lookup_nonempty _ "8" (PInt 97)). vm_compute. reflexivity.
  - refine (proj2 (proj2 (proj2 (activity_battery_fallback
                                   (battery_only (PStr "97")) _
                                   eq_refl _ _ _ _ _))) "97"%string _);
      try (vm_compute; reflexivity).
    apply (lookup_nonempty _ "8" (PStr "97")). vm_compute. reflexivity.
Defined.

Lemma activity_without_mapping (w : World) :
  data_truthy (data w) = false -> activity w = (Ret None, w).
Proof.
  intros H. unfold activity. rewrite bind_run. unfold ask. cbn. by rewrite H.
Qed.

(** X8.  Without a status mapping, [None] or empty, every reading is absent
    and nothing is stored: [activity], [error_code], [fan_speed] and
    [battery_level] give [None], [_is_running] says no and [icon] is the
    plain one; the world stays as it is. *)
Theorem readings_without_mapping (int_of_text : pyval -> option Z) (w : World) :
  data_truthy (data w) = false ->
  activity w = (Ret None, w) /\
  error_code w = None /\
  fan_speed w = None /\
  battery_level int_of_text w = Ret None /\
  _is_running w = (Ret false, w) /\
  icon w = (Ret "mdi:robot-vacuum"%string, w).
Proof.
  intros H.
  pose proof (activity_without_mapping w H) as Ha.
  repeat split.
  - exact Ha.
  - unfold error_code. by rewrite H.
  - unfold fan_speed. by rewrite H.
  - unfold battery_level. by rewrite H.
  - unfold _is_running. rewrite bind_run. unfold ask. cbn. by rewrite H.
  - unfold icon. by rewrite bind_run, Ha.
Qed.

Lemma readings_without_mapping_witness :
  activity no_rooms = (Ret None, no_rooms) /\
  battery_level (fun _ => None) no_rooms = Ret None.
Proof.
  destruct (readings_without_mapping (fun _ => None) no_rooms)
    as (H1 & _ & _ & H4 & _); [vm_compute; reflexivity|].
  auto.
Defined.

(** X11.  The icon follows the error code: whenever [icon] returns, it is
    the alert icon exactly when [error_code] is present. *)
Theorem icon_alert_iff_error_code (w w' : World) (name : string) :
  icon w = (Ret name, w') ->
  (name = "mdi:robot-vacuum-alert"%string <-> error_code w <> None).
Proof.
  intros Hicon.
  destruct (data_truthy (data w)) eqn:Htr.
  - destruct (data w) as [m|] eqn:Hd; [|discriminate].
    assert (Hact : wp activity (fun r _ => forall act, r = Ret act ->
               (act = Some VacuumActivity.ERROR <-> field6_error m = true)) w).
    { unfold activity. status_run m Hd; cbn; intros act [= <-];
        split; congruence. }
    unfold wp in Hact. unfold icon in Hicon. rewrite bind_run in Hicon.
    destruct (activity w) as [[act|e] w1]; [|discriminate].
    specialize (Hact act eq_refl). cbn in Hicon.
    pose proof (error_code_None w m Hd) as Hn.
    case_bool_decide as Hb; injection Hicon as <- <-.
    + split; [|done]. intros _. apply Hact in Hb. rewrite Hn. congruence.
    + split; [discriminate|]. intros He. exfalso. apply Hb, Hact.
      destruct (field6_error m); [done|]. exfalso. by apply He, Hn.
  - unfold icon in Hicon.
    rewrite bind_run, (activity_without_mapping w Htr) in Hicon.
    injection Hicon as <- <-. unfold error_code. rewrite Htr.
    split; [discriminate|done].
Qed.

Lemma icon_alert_iff_error_code_witness :
  (icon error_poll).1 = Ret "mdi:robot-vacuum-alert"%string /\
  error_code error_poll <> None.
Proof.
  split; [vm_compute; reflexivity|].
  apply (icon_alert_iff_error_code error_poll (icon error_poll).2
           "mdi:robot-vacuum-alert"); vm_compute; reflexivity.
Defined.

(** ** Battery level *)

Section Battery.
Variable int_of_text : pyval -> option Z.

Lemma battery_reading_bounded (value : pyval) :
  exists r, battery_reading int_of_text value = Ret r /\
            forall b, r = Some b -> 0 <= b <= 100.
Proof.
  unfold battery_reading.
  destruct (py_int int_of_text value) as [n|e] eqn:E; cbn.
  - destruct (Z.leb_spec 0 n), (Z.leb_spec n 100); cbn;
      eexists; (split; [reflexivity|]); intros b [=]; lia.
  - assert (is_value_or_type_error e = true) as ->.
    { destruct value; cbn in E; try discriminate.
      - by injection E as <-.
      - destruct (int_of_text (PStr s)); [discriminate|]. by injection E as <-.
      - destruct (int_of_text (PBytes bs)); [discriminate|]. by injection E as <-. }
    eexists; split; [reflexivity|]. discriminate.
Qed.

Lemma battery_field_bounded (m : gmap string pyval) (key : string) :
  exists r, battery_field int_of_text m key = Ret r /\
            forall b, r = Some b -> 0 <= b <= 100.
Proof.
  unfold battery_field.
  destruct (m !! key) as [value|];
    [|eexists; split; [reflexivity|discriminate]].
  destruct value; try apply battery_reading_bounded.
  eexists; split; [reflexivity|discriminate].
Qed.

Lemma battery_field_int (m : gmap string pyval) (key : string) (n : Z) :
  m !! key = Some (PInt n) ->
  battery_field int_of_text m key =
    Ret (if (0 <=? n) && (n <=? 100) then Some n else None).
Proof. intros H. unfold battery_field. by rewrite H. Qed.

End Battery.

(** X12.  A battery level that [battery_level] returns lies between 0 and
    100, whichever of the fields "8" and "163" it comes from and whatever
    [int] makes of a text. *)
Theorem battery_level_bounded (int_of_text : pyval -> option Z) (w : World)
    (b : Z) :
  battery_level int_of_text w = Ret (Some b) -> 0 <= b <= 100.
Proof.
  unfold battery_level.
  destruct (data_truthy (data w)); [|discriminate].
  destruct (battery_field_bounded int_of_text (default ∅ (data w)) "8")
    as (r8 & -> & H8). cbn.
  destruct r8 as [b8|].
  - intros [= <-]. by apply H8.
  - destruct (battery_field_bounded int_of_text (default ∅ (data w)) "163")
      as (r & -> & H163).
    intros [= ->]. by apply H163.
Qed.

Lemma battery_level_bounded_witness :
  battery_level (fun _ => None) battery_polls = Ret (Some 64) /\
  0 <= 64 <= 100.
Proof.
  assert (H : battery_level (fun _ => None) battery_polls = Ret (Some 64))
    by (vm_compute; reflexivity).
  split; [exact H|].
  exact (battery_level_bounded (fun _ => None) battery_polls 64 H).
Defined.

(** X13.  Field "8" comes first and field "163" stands in for it.  An
    integer from 0 to 100 in field "8" is the battery level, whatever field
    "163" holds; so is a text there that [int] reads as such a number.
    When field "8" is absent, [None] or an integer outside that range, an
    integer from 0 to 100 in field "163" is the level. *)
Theorem battery_level_fields (int_of_text : pyval -> option Z) (w : World)
    (m : gmap string pyval) :
  data w = Some m ->
  (forall n, m !! "8"%string = Some (PInt n) -> 0 <= n <= 100 ->
     battery_level int_of_text w = Ret (Some n)) /\
  (forall s n, m !! "8"%string = Some (PStr s) ->
     int_of_text (PStr s) = Some n -> 0 <= n <= 100 ->
     battery_level int_of_text w = Ret (Some n)) /\
  (forall k,
     m !! "8"%string = None \/ m !! "8"%string = Some PNone \/
     (exists n, m !! "8"%string = Some (PInt n) /\ (n < 0 \/ 100 < n)) ->
     m !! "163"%string = Some (PInt k) -> 0 <= k <= 100 ->
     battery_level int_of_text w = Ret (Some k)).
Proof.
  intros Hd.
  assert (Hrange : forall n, 0 <= n <= 100 -> (0 <=? n) && (n <=? 100) = true).
  { intros n Hn. apply andb_true_intro. split; apply Z.leb_le; lia. }
  split; [|split].
  - intros n H8 Hn. unfold battery_level.
    rewrite Hd, (data_truthy_lookup m _ _ H8). cbn [default from_option id].
    rewrite (battery_field_int _ _ _ _ H8), (Hrange n Hn). reflexivity.
  - intros s n H8 Hp Hn. unfold battery_level.
    rewrite Hd, (data_truthy_lookup m _ _ H8). cbn [default from_option id].
    unfold battery_field, battery_reading, py_int. rewrite H8, Hp. cbn.
    by rewrite (Hrange n Hn).
  - intros k H8 H163 Hk. unfold battery_level.
    rewrite Hd, (data_truthy_lookup m _ _ H163). cbn [default from_option id].
    assert (battery_field int_of_text m "8" = Ret None) as ->.
    { destruct H8 as [H8 | [H8 | (n & H8 & Hn)]].
      - unfold battery_field. by rewrite H8.
      - unfold battery_field. by rewrite H8.
      - rewrite (battery_field_int _ _ _ _ H8).
        destruct (Z.leb_spec 0 n), (Z.leb_spec n 100); cbn; try reflexivity; lia. }
    cbn. rewrite (battery_field_int _ _ _ _ H163), (Hrange k Hk). reflexivity.
Qed.

Lemma battery_level_fields_witness :
  battery_level (fun _ => None) blob_poll = Ret (Some 87) /\
  battery_level (fun _ => Some 42) (battery_only (PStr "42")) = Ret (Some 42) /\
  battery_level (fun _ => None) battery_polls = Ret (Some 64).
Proof.
  split; [|split].
  - apply (proj1 (battery_level_fields (fun _ => None) blob_poll _ eq_refl) 87);
      [vm_compute; reflexivity | lia].
  - apply (proj1 (proj2 (battery_level_fields (fun _ => Some 42)
                           (battery_only (PStr "42")) _ eq_refl)) "42"%string 42);
      [vm_compute; reflexivity | reflexivity | lia].
  - apply (proj2 (proj2 (battery_level_fields (fun _ => None) battery_polls _ eq_refl)) 64);
      [ right; right; exists 250; split; [vm_compute; reflexivity | lia]
      | vm_compute; reflexivity | lia ].
Defined.

(** ** Fan speed, continued *)

Section FanSpeed.

Lemma eufy_to_ha_range (raw_speed : pyval) (level : string) :
  eufy_to_ha raw_speed = Some level -> level ∈ fan_speed_list.
Proof.
  destruct raw_speed as [| | |token|]; try discriminate.
  cbn. intros H.
  assert (Hall : map_Forall (fun _ l => l ∈ fan_speed_list)
                   EUFY_TO_HA_FAN_SPEED_MAP).
  { unfold EUFY_TO_HA_FAN_SPEED_MAP, dict_of. cbn [foldl fst snd].
    repeat (apply map_Forall_insert_2; [unfold fan_speed_list; set_solver|]).
    apply map_Forall_empty. }
  exact (Hall token level H).
Qed.

(** A falsy value is no key of the reverse table, so the truth test in
    [fan_speed] changes nothing. *)
Lemma eufy_to_ha_truthy (raw_speed : pyval) :
  (if py_truthy raw_speed then eufy_to_ha raw_speed else None)
  = eufy_to_ha raw_speed.
Proof.
  destruct raw_speed as [| | |token|]; cbn; try by destruct_and?; repeat case_match.
  destruct (String.eqb_spec token EmptyString) as [->|]; [|reflexivity].
  vm_compute. reflexivity.
Qed.

Lemma fan_speed_run (w : World) (m : gmap string pyval) :
  data w = Some m -> m ≠ ∅ ->
  fan_speed w =
    match eufy_to_ha (default PNone (m !! "9"%string)) with
    | Some level => Some level
    | None => eufy_to_ha (default PNone (m !! "158"%string))
    end.
Proof.
  intros Hd Hne. unfold fan_speed. rewrite Hd.
  assert (data_truthy (Some m) = true) as -> by by apply bool_decide_eq_true.
  cbn [default from_option id]. by rewrite !eufy_to_ha_truthy.
Qed.

Lemma ha_to_eufy_Some (level : string) :
  level ∈ fan_speed_list ->
  exists primary secondary,
    HA_TO_EUFY_FAN_SPEED_MAP !! level = Some (primary, secondary) /\
    eufy_to_ha (PStr primary) = Some level.
Proof.
  intros H. unfold fan_speed_list in H.
  repeat (apply elem_of_cons in H as [-> | H]);
    [| | | | by apply elem_of_nil in H];
    eexists _, _; split; vm_compute; reflexivity.
Qed.

Lemma ha_to_eufy_None (level : string) :
  level ∉ fan_speed_list -> HA_TO_EUFY_FAN_SPEED_MAP !! level = None.
Proof.
  unfold fan_speed_list. rewrite !not_elem_of_cons. intros (? & ? & ? & ? & _).
  unfold HA_TO_EUFY_FAN_SPEED_MAP, dict_of. cbn [foldl fst snd].
  rewrite !lookup_insert_ne by done. apply lookup_empty.
Qed.

End FanSpeed.

(** X14.  [fan_speed] reports one of the four levels of [fan_speed_list] or
    nothing.  A token the reverse table knows in field "9" decides, whatever
    field "158" holds; otherwise the token in field "158" does. *)
Theorem fan_speed_reading (w : World) (m : gmap string pyval) :
  data w = Some m ->
  m ≠ ∅ ->
  (forall level, fan_speed w = Some level -> level ∈ fan_speed_list) /\
  (forall level,
     eufy_to_ha (default PNone (m !! "9"%string)) = Some level ->
     fan_speed w = Some level) /\
  (eufy_to_ha (default PNone (m !! "9"%string)) = None ->
     fan_speed w = eufy_to_ha (default PNone (m !! "158"%string))).
Proof.
  intros Hd Hne. rewrite (fan_speed_run w m Hd Hne).
  split; [|split].
  - intros level.
    destruct (eufy_to_ha (default PNone (m !! "9"%string))) as [l|] eqn:E.
    + intros [= <-]. by apply (eufy_to_ha_range _ _ E).
    + apply eufy_to_ha_range.
  - by intros level ->.
  - by intros ->.
Qed.

Lemma fan_speed_reading_witness : fan_speed fan_poll = Some "Maximum"%string.
Proof.
  assert (Hne : dict_of [("9"%string, PStr "auto"); ("158"%string, PStr "Max")] ≠ ∅).
  { apply (lookup_nonempty _ "9" (PStr "auto")). vm_compute. reflexivity. }
  rewrite (proj2 (proj2 (fan_speed_reading fan_poll _ eq_refl Hne)));
    vm_compute; reflexivity.
Defined.

(** X15.  [async_set_fan_speed] never raises.  For a level outside
    [fan_speed_list] it does nothing at all; for a level in the list it
    attempts exactly one write, which carries the primary token in field
    "9" and the secondary token in field "158", and a failure of that write
    is swallowed. *)
Theorem set_fan_speed_writes_once (level : string) (w : World) :
  (async_set_fan_speed level w).1 = Ret tt /\
  (level ∉ fan_speed_list -> async_set_fan_speed level w = (Ret tt, w)) /\
  (level ∈ fan_speed_list ->
     exists primary secondary fault,
       HA_TO_EUFY_FAN_SPEED_MAP !! level = Some (primary, secondary) /\
       new_events w (async_set_fan_speed level w).2 =
         [EvWrite [("9"%string, PStr primary); ("158"%string, PStr secondary)] fault]).
Proof.
  assert (Hset : forall payload,
    (try_except (async_set payload) (fun _ => mret tt) w).1 = Ret tt /\
    exists fault,
      new_events w (try_except (async_set payload) (fun _ => mret tt) w).2 =
        [EvWrite payload fault]).
  { intros payload. unfold try_except, async_set, new_events.
    destruct (write_faults w) as [|[msg|] rest]; cbn;
      (split; [reflexivity|]); eexists; apply drop_app_length. }
  split; [|split].
  - unfold async_set_fan_speed.
    destruct (HA_TO_EUFY_FAN_SPEED_MAP !! level) as [[p s]|]; [|reflexivity].
    apply Hset.
  - intros H. unfold async_set_fan_speed. by rewrite (ha_to_eufy_None level H).
  - intros H. unfold async_set_fan_speed.
    destruct (ha_to_eufy_Some level H) as (p & s & -> & _).
    destruct (Hset [("9"%string, PStr p); ("158"%string, PStr s)]) as [_ [fault Hf]].
    by exists p, s, fault.
Qed.

Lemma set_fan_speed_writes_once_witness :
  async_set_fan_speed "Eco" failing_device = (Ret tt, failing_device) /\
  exists primary secondary fault,
    HA_TO_EUFY_FAN_SPEED_MAP !! "Turbo"%string = Some (primary, secondary) /\
    new_events failing_device (async_set_fan_speed "Turbo" failing_device).2 =
      [EvWrite [("9"%string, PStr primary); ("158"%string, PStr secondary)] fault].
Proof.
  split.
  - apply (proj1 (proj2 (set_fan_speed_writes_once "Eco" failing_device))).
    unfold fan_speed_list. rewrite !not_elem_of_cons.
    repeat split; try discriminate. apply not_elem_of_nil.
  - apply (proj2 (proj2 (set_fan_speed_writes_once "Turbo" failing_device))).
    unfold fan_speed_list. do 2 apply list_elem_of_further. apply list_elem_of_here.
Defined.

(** X16.  Setting a fan speed and reading it back.  After
    [async_set_fan_speed] for a level of [fan_speed_list] on a device whose
    writes go through, a status mapping that holds what was written reads
    back, through [fan_speed], as that level. *)
Theorem fan_speed_set_then_read (level : string) (w w' : World) :
  level ∈ fan_speed_list ->
  device_healthy w ->
  data w' = Some (written_fields (new_events w (async_set_fan_speed level w).2)) ->
  fan_speed w' = Some level.
Proof.
  intros Hl Hh Hd.
  destruct (ha_to_eufy_Some level Hl) as (p & s & Hps & Hback).
  assert (Hev : new_events w (async_set_fan_speed level w).2 =
                [EvWrite [("9"%string, PStr p); ("158"%string, PStr s)] None]).
  { unfold async_set_fan_speed. rewrite Hps.
    unfold try_except, async_set, new_events, device_healthy in *.
    destruct (write_faults w) as [|[msg|] rest]; cbn.
    - apply drop_app_length.
    - apply Forall_cons in Hh as [[=] _].
    - apply drop_app_length. }
  rewrite Hev in Hd. cbn in Hd.
  assert (H9 : (<["158"%string := PStr s]> (<["9"%string := PStr p]> (∅ : gmap string pyval)))
                 !! "9"%string = Some (PStr p)).
  { rewrite lookup_insert_ne by done. apply lookup_insert_eq. }
  rewrite (fan_speed_run w' _ Hd (lookup_nonempty _ _ _ H9)), H9.
  cbn [default from_option id]. by rewrite Hback.
Qed.

Lemma fan_speed_set_then_read_witness :
  fan_speed
    (set_data (Some (written_fields
                       (new_events no_rooms (async_set_fan_speed "Quiet" no_rooms).2)))
       no_rooms) = Some "Quiet"%string.
Proof.
  apply (fan_speed_set_then_read "Quiet" no_rooms).
  - apply list_elem_of_here.
  - constructor.
  - reflexivity.
Defined.

(** ** Command sequences on a healthy device *)

Section Sequences.

Lemma clean_bind {A B} (m : M A) (k : A -> M B) (e1 e2 : list event) :
  clean_run m e1 -> (forall a, clean_run (k a) e2) ->
  clean_run (m ≫= k) (e1 ++ e2).
Proof.
  intros Hm Hk w Hh. rewrite bind_run.
  destruct (Hm w Hh) as (a & Hr & Ht & Hh1).
  destruct (m w) as [r w1]. cbn in *. subst r.
  destruct (Hk a w1 Hh1) as (b & Hr2 & Ht2 & Hh2).
  exists b. rewrite Ht2, Ht, app_assoc. auto.
Qed.

Lemma clean_quiet {A} (m : M A) :
  (forall w, exists a, m w = (Ret a, w)) -> clean_run m [].
Proof.
  intros H w Hh. destruct (H w) as [a ->]. exists a. cbn.
  by rewrite app_nil_r.
Qed.

Lemma clean_modify (g : World -> World) :
  (forall w, trace (g w) = trace w) ->
  (forall w, write_faults (g w) = write_faults w) ->
  clean_run (modify g) [].
Proof.
  intros Ht Hf w Hh. exists tt. cbn. rewrite Ht, app_nil_r.
  unfold device_healthy in *. by rewrite Hf.
Qed.

Lemma clean_async_set (payload : list (string * pyval)) :
  clean_run (async_set payload) [EvWrite payload None].
Proof.
  intros w Hh. unfold async_set, device_healthy in *.
  destruct (write_faults w) as [|[msg|] rest] eqn:E; cbn.
  - exists tt. rewrite E. auto.
  - apply Forall_cons in Hh as [[=] _].
  - exists tt. apply Forall_cons in Hh as [_ Hh]. auto.
Qed.

Lemma clean_sleep (ms : Z) : clean_run (sleep ms) [EvSleep ms].
Proof. intros w Hh. exists tt. auto. Qed.

Lemma clean_async_request_refresh : clean_run async_request_refresh [EvRefresh].
Proof.
  intros w Hh. exists tt. unfold async_request_refresh. cbn.
  by destruct (polls w) as [|[d|] rest].
Qed.

Lemma clean_try_except {A} (body : M A) (handler : exn -> M A)
    (evs : list event) :
  clean_run body evs -> clean_run (try_except body handler) evs.
Proof.
  intros Hb w Hh. unfold try_except.
  destruct (Hb w Hh) as (a & Hr & Ht & Hh1).
  destruct (body w) as [r w1]. cbn in *. subst r. by exists a.
Qed.

Lemma _is_running_ret (w : World) : exists b, _is_running w = (Ret b, w).
Proof.
  assert (H : wp _is_running (fun r _ => exists b, r = Ret b) w).
  { destruct (data w) as [m|] eqn:Hd.
    - unfold _is_running. status_run m Hd; eauto.
    - unfold _is_running. apply wp_bind, wp_ask. rewrite Hd. cbn.
      apply wp_ret. eauto. }
  destruct H as [b Hb]. exists b.
  pose proof (_is_running_same_world w) as Hw.
  destruct (_is_running w) as [r w1]. cbn in *. by subst.
Qed.

Lemma strict_bind {A B} (m : M A) (k : A -> M B) :
  strict_run m -> (forall a, strict_run (k a)) -> strict_run (m ≫= k).
Proof.
  intros Hm Hk w. rewrite bind_run.
  destruct (Hm w) as (e1 & Ht1 & H1).
  destruct (m w) as [r w1]. cbn in *.
  destruct H1 as [[Hn [a ->]] | [Hn [msg ->]]].
  - destruct (Hk a w1) as (e2 & Ht2 & H2).
    exists (e1 ++ e2). rewrite Ht2, Ht1, app_assoc. split; [done|].
    destruct H2 as [[Hn2 Hr] | [Hn2 Hr]].
    + left. split; [by apply Forall_app|done].
    + right. split; [|done]. intros [_ ?]%Forall_app. done.
  - exists e1. split; [done|]. right. split; [done|]. by exists msg.
Qed.

Lemma strict_quiet {A} (m : M A) :
  (forall w, exists a, m w = (Ret a, w)) -> strict_run m.
Proof.
  intros H w. destruct (H w) as [a ->]. exists []. cbn.
  rewrite app_nil_r. split; [done|]. left. split; [constructor|by exists a].
Qed.

Lemma strict_modify (g : World -> World) :
  (forall w, trace (g w) = trace w) -> strict_run (modify g).
Proof.
  intros Ht w. exists []. cbn. rewrite Ht, app_nil_r. split; [done|].
  left. split; [constructor|by exists tt].
Qed.

Lemma strict_async_set (payload : list (string * pyval)) :
  strict_run (async_set payload).
Proof.
  intros w. unfold async_set.
  destruct (write_faults w) as [|[msg|] rest]; cbn.
  - exists [EvWrite payload None]. split; [done|]. left.
    split; [by repeat constructor|by exists tt].
  - exists [EvWrite payload (Some msg)]. split; [done|]. right.
    split; [|by exists msg]. intros [[=] _]%Forall_cons.
  - exists [EvWrite payload None]. split; [done|]. left.
    split; [by repeat constructor|by exists tt].
Qed.

Lemma strict_sleep (ms : Z) : strict_run (sleep ms).
Proof.
  intros w. exists [EvSleep ms]. split; [done|]. left.
  split; [by repeat constructor|by exists tt].
Qed.

Lemma strict_async_request_refresh : strict_run async_request_refresh.
Proof.
  intros w. exists [EvRefresh]. unfold async_request_refresh. cbn.
  split; [by destruct (polls w) as [|[d|] rest]|]. left.
  split; [by repeat constructor|].
  exists tt. by destruct (polls w) as [|[d|] rest].
Qed.

Lemma strict_try_reraise {A} (body : M A) :
  strict_run body -> strict_run (try_except body (fun e => raise e)).
Proof. intros H w. rewrite try_except_reraise. apply H. Qed.

End Sequences.

Ltac clean_step :=
  first
    [ apply clean_try_except
    | apply clean_async_set
    | apply clean_sleep
    | apply clean_async_request_refresh
    | apply clean_modify; intros ?; reflexivity
    | apply clean_quiet; intros ?; first [apply _is_running_ret | by eexists]
    | match goal with
      | |- clean_run (_ ≫= _) _ => eapply clean_bind; [|intros ?]
      | |- clean_run (if ?c then _ else _) _ => destruct c
      end ].

Ltac strict_step :=
  first
    [ apply strict_bind; [|intros ?]
    | apply strict_try_reraise
    | apply strict_async_set
    | apply strict_sleep
    | apply strict_async_request_refresh
    | apply strict_modify; intros ?; reflexivity
    | apply strict_quiet; intros ?; first [apply _is_running_ret | by eexists]
    | match goal with
      | |- strict_run (if ?c then _ else _) => destruct c
      end ].

Lemma clean_weaken {A} (m : M A) (evs evs' : list event) :
  clean_run m evs -> evs = evs' -> clean_run m evs'.
Proof. by intros H <-. Qed.

Lemma clean_send_command (command : string) :
  clean_run (_send_command command) (command_events command).
Proof.
  unfold _send_command, command_events, mode_of.
  destruct (String.eqb command S1_PRO_COMMANDS.start);
    [|destruct (String.eqb command S1_PRO_COMMANDS.pause);
      [|destruct (String.eqb command S1_PRO_COMMANDS.return_)]];
    (eapply clean_weaken; [repeat clean_step | reflexivity]).
Qed.

Lemma clean_events {A} (m : M A) (evs : list event) (w : World) :
  clean_run m evs -> device_healthy w ->
  (exists a, (m w).1 = Ret a) /\ new_events w (m w).2 = evs.
Proof.
  intros H Hh. destruct (H w Hh) as (a & Hr & Ht & _).
  split; [by exists a|]. by apply new_events_app.
Qed.

(** X17.  [_send_command] records the command in [_last_command] before it
    writes, so also when the write fails, and never touches the flag.  On a
    device whose writes go through it returns after the write of the
    command to field "152", a wait of 0.5 s, the write of the mode to
    field "5" when the command is start, pause or return (none for the
    cleaning token), a wait of 1 s and a refresh. *)
Theorem send_command_sequence (command : string) (w : World) :
  _last_command (_send_command command w).2 = Some command /\
  _was_paused (_send_command command w).2 = _was_paused w /\
  (device_healthy w ->
     (_send_command command w).1 = Ret tt /\
     new_events w (_send_command command w).2 = command_events command).
Proof.
  split; [|split].
  - unfold _send_command. rewrite try_except_reraise, bind_run.
    change (modify (set_last_command (Some command)) w)
      with (Ret tt, set_last_command (Some command) w).
    cbv iota beta.
    match goal with
    | |- _last_command (?m ?w0).2 = _ =>
        assert (H : preserves _last_command m) by repeat flag_step;
        rewrite (H w0)
    end.
    reflexivity.
  - apply send_command_flag.
  - intros Hh.
    destruct (clean_events _ _ w (clean_send_command command) Hh) as [[[] Hr] He].
    auto.
Qed.

Lemma send_command_sequence_witness :
  (_send_command "AggN" healthy_device).1 = Ret tt /\
  new_events healthy_device (_send_command "AggN" healthy_device).2 =
    [EvWrite [("152"%string, PStr "AggN")] None; EvSleep 500;
     EvWrite [("5"%string, PStr "pause")] None; EvSleep 1000; EvRefresh].
Proof.
  apply (proj2 (proj2 (send_command_sequence "AggN" healthy_device))).
  repeat constructor.
Defined.

Lemma clean_async_turn_on : clean_run async_turn_on fresh_start_events.
Proof.
  unfold async_turn_on, fresh_start_events.
  eapply clean_weaken;
    [repeat first [apply clean_send_command | clean_step]|].
  vm_compute. reflexivity.
Qed.

(** X18.  The fresh-start sequence.  [async_turn_on] leaves the flag clear
    whether or not its writes go through.  On a device whose writes go
    through it returns after: start token, 0.5 s, mode "smart", 1 s,
    refresh; 2 s; cleaning token, 0.5 s, 1 s, refresh; and a last
    refresh. *)
Theorem turn_on_sequence (w : World) :
  _was_paused (async_turn_on w).2 = false /\
  (device_healthy w ->
     (async_turn_on w).1 = Ret tt /\
     new_events w (async_turn_on w).2 =
       [ EvWrite [("152"%string, PStr "AA==")] None; EvSleep 500;
         EvWrite [("5"%string, PStr "smart")] None; EvSleep 1000; EvRefresh;
         EvSleep 2000;
         EvWrite [("152"%string, PStr "AggO")] None; EvSleep 500;
         EvSleep 1000; EvRefresh;
         EvRefresh ]).
Proof.
  split.
  - unfold async_turn_on. rewrite try_except_reraise, bind_run.
    change (modify (set_was_paused false) w) with (Ret tt, set_was_paused false w).
    cbv iota beta.
    match goal with
    | |- _was_paused (?m ?w0).2 = _ =>
        assert (H : preserves _was_paused m);
        [|rewrite (H w0); reflexivity]
    end.
    repeat first
      [ apply send_command_flag | apply _is_running_flag | flag_step ].
  - intros Hh.
    destruct (clean_events _ _ w clean_async_turn_on Hh) as [[[] Hr] He].
    auto.
Qed.

Lemma turn_on_sequence_witness :
  (async_turn_on healthy_device).1 = Ret tt /\
  _was_paused (async_turn_on healthy_device).2 = false.
Proof.
  split.
  - apply (proj2 (turn_on_sequence healthy_device)). repeat constructor.
  - apply (proj1 (turn_on_sequence healthy_device)).
Defined.

Lemma is_paused_by_dps153_false (current_dps153 : pyval) (w : World) :
  (if py_truthy current_dps153 then
     '(detected_state, _) ← liftR (decode_dps153_to_state current_dps153);
     mret (bool_decide (detected_state = PAUSED))
   else mret false) w = (Ret false, w).
Proof.
  destruct (py_truthy current_dps153); [|reflexivity].
  rewrite bind_run. unfold liftR.
  by destruct (decode_unknown current_dps153) as [-> | ->].
Qed.

(** X19.  When the start is no resume it is the fresh start.  If the status
    evaluation that opens [async_start] returns an activity other than
    [PAUSED] and leaves the flag clear, and field "152" does not hold the
    pause token, [async_start] goes on exactly as [async_turn_on] does from
    the world that evaluation left. *)
Theorem start_runs_fresh_start (w w1 : World) (m : gmap string pyval)
    (act : option VacuumActivity.t) :
  data w = Some m ->
  activity w = (Ret act, w1) ->
  act <> Some VacuumActivity.PAUSED ->
  _was_paused w1 = false ->
  py_eq (default (PStr EmptyString) (m !! "152"%string))
        (PStr S1_PRO_COMMANDS.pause) = false ->
  async_start w = async_turn_on w1.
Proof.
  intros Hd Hact Hp Hflag H152.
  assert (Hd1 : data w1 = Some m).
  { rewrite <- Hd. generalize (activity_data w). by rewrite Hact. }
  unfold async_start.
  rewrite (bind_run_ret _ _ _ _ _ Hact).
  rewrite (bind_run_ret _ _ _ _ _ (data_get_some _ _ _ _ Hd1)).
  rewrite (bind_run_ret _ _ _ _ _ (data_get_some _ _ _ _ Hd1)).
  rewrite (bind_run_ret _ _ _ _ _ (is_paused_by_dps153_false _ w1)).
  rewrite (bind_run_ret _ _ w1 w1 (_was_paused w1)) by reflexivity.
  rewrite Hflag, H152. by rewrite bool_decide_eq_false_2.
Qed.

Lemma start_runs_fresh_start_witness :
  async_start docked_poll = async_turn_on docked_poll.
Proof.
  apply (start_runs_fresh_start docked_poll docked_poll _
           (Some VacuumActivity.DOCKED) eq_refl).
  - vm_compute. reflexivity.
  - discriminate.
  - reflexivity.
  - vm_compute. reflexivity.
Defined.

Lemma strict_send_command (command : string) :
  strict_run (_send_command command).
Proof. unfold _send_command. repeat strict_step. Qed.

(** X20.  [async_pause] never raises, and the flag tells how it went: after
    it the flag is set exactly when none of its writes failed.  On a device
    whose writes go through it writes the pause token, waits 0.5 s, writes
    mode "pause", waits 1 s and asks for a refresh. *)
Theorem pause_flag_tracks_outcome (w : World) :
  (async_pause w).1 = Ret tt /\
  (_was_paused (async_pause w).2 = true <->
   no_fault (new_events w (async_pause w).2)) /\
  (device_healthy w ->
     new_events w (async_pause w).2 =
       [EvWrite [("152"%string, PStr "AggN")] None; EvSleep 500;
        EvWrite [("5"%string, PStr "pause")] None; EvSleep 1000; EvRefresh]).
Proof.
  set (body := modify (set_was_paused true);; _send_command S1_PRO_COMMANDS.pause).
  assert (Hstrict : strict_run body).
  { unfold body. apply strict_bind; [|intros ?].
    - apply strict_modify. intros ?. reflexivity.
    - apply strict_send_command. }
  assert (Hflag : _was_paused (body w).2 = true).
  { unfold body. rewrite bind_run.
    change (modify (set_was_paused true) w) with (Ret tt, set_was_paused true w).
    cbv iota beta. by rewrite send_command_flag. }
  assert (Hclean : clean_run body (command_events S1_PRO_COMMANDS.pause)).
  { unfold body. eapply clean_weaken.
    - eapply clean_bind; [|intros ?; apply clean_send_command].
      apply clean_modify; intros ?; reflexivity.
    - reflexivity. }
  change async_pause
    with (try_except body (fun _ => modify (set_was_paused false))).
  unfold try_except.
  destruct (Hstrict w) as (evs & Ht & Hcase).
  split; [|split].
  - by destruct (body w) as [[[]|e] w1].
  - destruct (body w) as [[[]|e] w1] eqn:Hb; cbn in *.
    + rewrite (new_events_app _ _ _ Ht).
      destruct Hcase as [[Hn _] | [_ [msg [=]]]]. by split.
    + rewrite (new_events_app _ (set_was_paused false w1) _ Ht).
      destruct Hcase as [[_ [a [=]]] | [Hn _]]. split; [discriminate|done].
  - intros Hh. destruct (Hclean w Hh) as (a & Hr & Htr & _).
    destruct (body w) as [[[]|e] w1]; cbn in *; [|discriminate].
    by apply new_events_app.
Qed.

Lemma pause_flag_tracks_outcome_witness :
  new_events healthy_device (async_pause healthy_device).2 =
    [EvWrite [("152"%string, PStr "AggN")] None; EvSleep 500;
     EvWrite [("5"%string, PStr "pause")] None; EvSleep 1000; EvRefresh].
Proof.
  apply (proj2 (proj2 (pause_flag_tracks_outcome healthy_device))).
  repeat constructor.
Defined.

(** X21.  [async_return_to_base] never raises and always leaves the flag
    clear.  On a device whose writes go through it writes the return
    token, waits 0.5 s, writes mode "charge", waits 1 s and asks for a
    refresh. *)
Theorem return_to_base_sequence (w : World) :
  (async_return_to_base w).1 = Ret tt /\
  _was_paused (async_return_to_base w).2 = false /\
  (device_healthy w ->
     new_events w (async_return_to_base w).2 =
       [EvWrite [("152"%string, PStr "AggG")] None; EvSleep 500;
        EvWrite [("5"%string, PStr "charge")] None; EvSleep 1000; EvRefresh]).
Proof.
  set (body := modify (set_was_paused false);; _send_command S1_PRO_COMMANDS.return_).
  assert (Hflag : _was_paused (body w).2 = false).
  { unfold body. rewrite bind_run.
    change (modify (set_was_paused false) w) with (Ret tt, set_was_paused false w).
    cbv iota beta. by rewrite send_command_flag. }
  assert (Hclean : clean_run body (command_events S1_PRO_COMMANDS.return_)).
  { unfold body. eapply clean_weaken.
    - eapply clean_bind; [|intros ?; apply clean_send_command].
      apply clean_modify; intros ?; reflexivity.
    - reflexivity. }
  change async_return_to_base with (try_except body (fun _ => mret tt)).
  unfold try_except.
  split; [|split].
  - by destruct (body w) as [[[]|e] w1].
  - by destruct (body w) as [[[]|e] w1].
  - intros Hh. destruct (Hclean w Hh) as (a & Hr & Htr & _).
    destruct (body w) as [[[]|e] w1]; cbn in *; [|discriminate].
    by apply new_events_app.
Qed.

Lemma return_to_base_sequence_witness :
  new_events healthy_device (async_return_to_base healthy_device).2 =
    [EvWrite [("152"%string, PStr "AggG")] None; EvSleep 500;
     EvWrite [("5"%string, PStr "charge")] None; EvSleep 1000; EvRefresh].
Proof.
  apply (proj2 (proj2 (return_to_base_sequence healthy_device))).
  repeat constructor.
Defined.

Lemma clean_room_sequence_run (dps173_value : pyval) :
  clean_run (room_sequence dps173_value)
    ([EvWrite [("173"%string, dps173_value)] None; EvSleep 500]
     ++ fresh_start_events).
Proof.
  unfold room_sequence.
  eapply clean_weaken;
    [repeat first [apply clean_send_command | clean_step]|].
  vm_compute. reflexivity.
Qed.

Lemma room_sequence_flag (dps173_value : pyval) (w : World) :
  device_healthy w -> _was_paused (room_sequence dps173_value w).2 = false.
Proof.
  intros Hh. unfold room_sequence.
  rewrite try_except_reraise, bind_run.
  destruct (clean_async_set [("173"%string, dps173_value)] w Hh)
    as ([] & Hr & _ & _).
  destruct (async_set [("173"%string, dps173_value)] w) as [r w1].
  cbn in Hr. subst r. rewrite bind_run.
  change (sleep 500 w1) with (Ret tt, set_trace (trace w1 ++ [EvSleep 500]) w1).
  cbv iota beta. rewrite bind_run.
  match goal with
  | |- context [modify (set_was_paused false) ?w0] =>
      change (modify (set_was_paused false) w0)
        with (Ret tt, set_was_paused false w0)
  end.
  cbv iota beta.
  match goal with
  | |- _was_paused (?m ?w0).2 = _ =>
      assert (H : preserves _was_paused m);
      [|rewrite (H w0); reflexivity]
  end.
  repeat first
    [ apply send_command_flag | apply _is_running_flag | flag_step ].
Qed.

(** X22.  Room cleaning on a device whose writes go through.  Once the room
    id is found in the table, the handler writes that room's payload to
    field "173", waits 0.5 s and runs the fresh-start sequence, whatever
    the flag and the polled state were; it returns normally with the flag
    clear. *)
Theorem clean_room_sequence (w : World) (room_id : string)
    (table : list (string * pyval)) (payload : pyval) :
  room_mappings w = Some table ->
  room_lookup room_id table = Some payload ->
  device_healthy w ->
  let run := run_intent (CleanRoom (PStr room_id)) w in
  run.1 = Ret tt /\
  _was_paused run.2 = false /\
  new_events w run.2 =
    [EvWrite [("173"%string, payload)] None; EvSleep 500] ++ fresh_start_events.
Proof.
  intros Ht Hl Hh. cbv zeta.
  rewrite clean_room_run, Ht. cbn [default from_option id py_str].
  destruct table as [|kv table]; [discriminate|]. rewrite Hl.
  destruct (clean_events _ _ w (clean_room_sequence_run payload) Hh)
    as [[[] Hr] He].
  split; [exact Hr|]. split; [by apply room_sequence_flag|exact He].
Qed.

Lemma clean_room_sequence_witness :
  writes (new_events healthy_device
            (run_intent (CleanRoom (PStr "closet")) healthy_device).2) =
    [ EvWrite [("173"%string, PStr "NworCgoK")] None;
      EvWrite [("152"%string, PStr "AA==")] None;
      EvWrite [("5"%string, PStr "smart")] None;
      EvWrite [("152"%string, PStr "AggO")] None ].
Proof.
  rewrite (proj2 (proj2 (clean_room_sequence healthy_device "closet" room_table
                           (PStr "NworCgoK") eq_refl eq_refl
                           ltac:(repeat constructor)))).
  reflexivity.
Defined.

(** X23.  Calls that are refused before anything happens.
    [async_send_command] with a command other than "clean_room" raises
    [ValueError] naming the command; room cleaning without parameters, with
    empty parameters or without a "room_id" among them raises [ValueError]
    "room_id parameter is required".  In each case the world is left as it
    was: no write, no wait, no change to the entity. *)
Theorem send_command_refusals (w : World) :
  (forall command params,
     command <> "clean_room"%string ->
     async_send_command command params w =
       (Raise (ValueError ("Unsupported command: " +:+ command)), w)) /\
  (forall params,
     params = None \/
     (exists p, params = Some p /\ p !! "room_id"%string = None) ->
     async_send_command "clean_room" params w =
       (Raise (ValueError "room_id parameter is required"), w)).
Proof.
  split.
  - intros command params Hne. unfold async_send_command.
    by destruct (String.eqb_spec command "clean_room").
  - intros params H. unfold async_send_command, _handle_clean_room_command.
    rewrite String.eqb_refl.
    destruct H as [-> | (p & -> & Hp)]; cbn [mbind option_bind]; [done|].
    by rewrite Hp.
Qed.

Lemma send_command_refusals_witness :
  async_send_command "locate" None healthy_device =
    (Raise (ValueError "Unsupported command: locate"), healthy_device) /\
  async_send_command "clean_room" (Some ∅) healthy_device =
    (Raise (ValueError "room_id parameter is required"), healthy_device).
Proof.
  split.
  - apply (proj1 (send_command_refusals healthy_device) "locate"%string None).
    discriminate.
  - apply (proj2 (send_command_refusals healthy_device) (Some ∅)).
    right. exists ∅. split; reflexivity.
Defined.

(** X24.  A start before the first poll.  While [coordinator.data] is still
    [None], [async_start] raises [AttributeError] at its first read of the
    mapping, before any write, and leaves the world, flag included, as it
    was. *)
Theorem start_without_mapping (w : World) :
  data w = None ->
  async_start w =
    (Raise (AttributeError "'NoneType' object has no attribute 'get'"), w).
Proof.
  intros Hd.
  assert (Ha : activity w = (Ret None, w)).
  { unfold activity. rewrite bind_run. unfold ask. cbn. by rewrite Hd. }
  unfold async_start. rewrite (bind_run_ret _ _ _ _ _ Ha).
  rewrite bind_run. unfold data_get. by rewrite Hd.
Qed.

Lemma start_without_mapping_witness :
  async_start never_polled =
    (Raise (AttributeError "'NoneType' object has no attribute 'get'"),
     never_polled).
Proof. apply (start_without_mapping never_polled). reflexivity. Defined.
